(** * Satya-Drishti: the fusion and escalation logic of [analyzeContent]

    A shallow embedding of [services/geminiService.ts] (the analysis
    pipeline with its score fusion, escalation and rebuttal steps) and of
    the file validation of [components/FileUpload.tsx].

    Conventions of the embedding.
    - A JavaScript string is a Rocq [string]; a character stands for one
      UTF-16 code unit in the range 0..255.
    - A JavaScript number is an exact rational ([Q]).  The scores the
      program handles are sums, differences and halves of values between
      0 and 100; on integer scores these operations are exact on IEEE
      doubles as well.  On fractional scores a double operation can
      round: the fusion score is therefore also given in binary64
      ([Double]), and the two are compared.
    - [undefined] and [null] are [None].
    - The collaborators of the program (environment, file reader, the
      generative model, the JSON parser, the random source) are the fields
      of a [World]; one run of [analyzeContent] asks each of them at most
      once.
    - A computation returns an [Outcome] (a value or a thrown error) and
      appends the calls it makes to a trace of [Event]s. *)

From Stdlib Require Import ZArith QArith Qround Lqa Bool List String Ascii Lia.
From Stdlib Require PrimFloat SpecFloat FloatOps.
Import ListNotations.

Open Scope string_scope.

(** ** JavaScript strings *)

Module JsString.

(** The character [U+0022], written by its code. *)
Definition dquote : string := String (ascii_of_nat 34) EmptyString.

(** The line feed inside a multi-line template literal. *)
Definition newline : string := String (ascii_of_nat 10) EmptyString.

(** [WhiteSpace] and [LineTerminator] code units below 256:
    TAB, LF, VT, FF, CR, SP and NBSP. *)
Definition is_whitespace (c : ascii) : bool :=
  let n := nat_of_ascii c in
  (n =? 9)%nat || (n =? 10)%nat || (n =? 11)%nat || (n =? 12)%nat
  || (n =? 13)%nat || (n =? 32)%nat || (n =? 160)%nat.

Fixpoint trimStart (s : string) : string :=
  match s with
  | EmptyString => EmptyString
  | String c s' => if is_whitespace c then trimStart s' else s
  end.

Fixpoint trimEnd (s : string) : string :=
  match s with
  | EmptyString => EmptyString
  | String c s' =>
      match trimEnd s' with
      | EmptyString => if is_whitespace c then EmptyString
                       else String c EmptyString
      | t => String c t
      end
  end.

(** [String.prototype.trim]. *)
Definition trim (s : string) : string := trimEnd (trimStart s).

Fixpoint all_whitespace (s : string) : bool :=
  match s with
  | EmptyString => true
  | String c s' => is_whitespace c && all_whitespace s'
  end.

(** Truthiness of a string: every string but the empty one. *)
Definition truthy (s : string) : bool :=
  match s with
  | EmptyString => false
  | String _ _ => true
  end.

(** [a || b] on strings. *)
Definition or_else (a b : string) : string :=
  if truthy a then a else b.

(** [a || b] where [a] may be [undefined]. *)
Definition opt_or_else (a : option string) (b : string) : string :=
  match a with
  | Some s => or_else s b
  | None => b
  end.

(** Truthiness of a value that may be [undefined]. *)
Definition opt_truthy (a : option string) : bool :=
  match a with
  | Some s => truthy s
  | None => false
  end.

(** [String.prototype.startsWith]. *)
Fixpoint startsWith (p s : string) : bool :=
  match p, s with
  | EmptyString, _ => true
  | String a p', String b s' => Ascii.eqb a b && startsWith p' s'
  | String _ _, EmptyString => false
  end.

(** [s.split(',')]: the pieces of [s] between commas, never empty. *)
Fixpoint split_comma (s : string) : list string :=
  match s with
  | EmptyString => [EmptyString]
  | String c s' =>
      if Ascii.eqb c ","%char then EmptyString :: split_comma s'
      else match split_comma s' with
           | piece :: rest => String c piece :: rest
           | [] => [String c EmptyString]
           end
  end.

End JsString.

(** ** JavaScript numbers *)

Module JsNumber.

(** [a < b]. *)
Definition ltb (a b : Q) : bool :=
  (Qnum a * QDen b <? Qnum b * QDen a)%Z.

(** [a > b]. *)
Definition gtb (a b : Q) : bool := ltb b a.

(** [Math.round]: the integer closest to [x], the one closer to
    plus infinity when two are equally close. *)
Definition Math_round (x : Q) : Q :=
  inject_Z (Qfloor (x + (1 # 2))).

(** [Math.floor]. *)
Definition Math_floor (x : Q) : Q := inject_Z (Qfloor x).

End JsNumber.

(** ** Binary64 numbers

    The arithmetic of the fusion score as the engine runs it: IEEE 754
    binary64, round to nearest even, on the kernel's primitive floats.
    [JsNumber] above carries the same expressions in exact rationals;
    the two agree wherever no operation rounds, and on every pair of
    whole scores between 0 and 100 in particular. *)

Module Double.

Import PrimFloat SpecFloat FloatOps.



(** The exact value of a double, in lowest terms; none for the
    infinities and NaN. *)
Definition value (x : float) : option Q :=
  match Prim2SF x with
  | S754_zero _ => Some 0%Q
  | S754_finite s m e =>
      Some (Qred ((if s then - (1) else 1) * inject_Z (Z.pos m)
                  * Qpower 2 e))%Q
  | S754_infinity _ => None
  | S754_nan => None
  end.

(** [Math.round] of a double, as a whole number: the integer closest to
    its exact value, the one closer to plus infinity when two are
    equally close. *)
Definition Math_round (x : float) : option Z :=
  match value x with
  | Some q => Some (Qfloor (q + (1 # 2)))
  | None => None
  end.

(** The fusion score of [analyzeContent] for a contextual risk score and
    an integrity score: [manipulationRisk = 100 - deepfakeScore] and the
    mean [(riskScore + manipulationRisk) / 2], then [Math.round] of
    it. *)
Definition mean (riskScore deepfakeScore : float) : float :=
  let manipulationRisk := (100 - deepfakeScore)%float in
  ((riskScore + manipulationRisk) / 2)%float.

Definition fusionScore (riskScore deepfakeScore : float) : option Z :=
  Math_round (mean riskScore deepfakeScore).



End Double.

(** ** The data model ([types.ts]) *)

Module Severity.
Inductive t : Set := LOW | MEDIUM | HIGH | CRITICAL.
End Severity.

Inductive RiskLevel : Set :=
  SAFE | CAUTION | SUSPICIOUS | DANGEROUS | CRITICAL.

(** [riskLevel === other]. *)
Definition RiskLevel_eqb (a b : RiskLevel) : bool :=
  match a, b with
  | SAFE, SAFE | CAUTION, CAUTION | SUSPICIOUS, SUSPICIOUS
  | DANGEROUS, DANGEROUS | CRITICAL, CRITICAL => true
  | _, _ => false
  end.

Record PropagandaFlag : Set := mkFlag {
  technique : string;
  description : string;
  severity : Severity.t;
  location : option string
}.

(** The object the analysis call answers with: the properties of
    [RESPONSE_SCHEMA], the optional ones as options. *)
Module Schema.
Record t : Set := mk {
  riskScore : Q;
  riskLevel : RiskLevel;
  summary : string;
  narrativeStrategy : option string;
  emotionalTriggers : option (list string);
  flags : list PropagandaFlag
}.
End Schema.

(** [AnalysisResult].  [fusionScore] is declared as a number, yet the
    parsed answer does not carry it: it is unset until [analyzeContent]
    assigns it. *)
Record AnalysisResult : Set := mkResult {
  riskScore : Q;
  fusionScore : option Q;
  riskLevel : RiskLevel;
  summary : string;
  flags : list PropagandaFlag;
  narrativeStrategy : option string;
  emotionalTriggers : option (list string);
  visualIntegrityScore : option Q;
  visualIntegrityWarning : option string;
  rebuttal : option string
}.

(** [JSON.parse(text) as AnalysisResult]: the schema's properties, and
    nothing else set. *)
Definition as_AnalysisResult (p : Schema.t) : AnalysisResult :=
  {| riskScore := Schema.riskScore p;
     fusionScore := None;
     riskLevel := Schema.riskLevel p;
     summary := Schema.summary p;
     flags := Schema.flags p;
     narrativeStrategy := Schema.narrativeStrategy p;
     emotionalTriggers := Schema.emotionalTriggers p;
     visualIntegrityScore := None;
     visualIntegrityWarning := None;
     rebuttal := None |}.

(** Assignments to the properties of a result object. *)
Definition set_fusionScore (v : Q) (r : AnalysisResult) : AnalysisResult :=
  {| riskScore := riskScore r; fusionScore := Some v;
     riskLevel := riskLevel r; summary := summary r; flags := flags r;
     narrativeStrategy := narrativeStrategy r;
     emotionalTriggers := emotionalTriggers r;
     visualIntegrityScore := visualIntegrityScore r;
     visualIntegrityWarning := visualIntegrityWarning r;
     rebuttal := rebuttal r |}.

Definition set_riskLevel (v : RiskLevel) (r : AnalysisResult)
  : AnalysisResult :=
  {| riskScore := riskScore r; fusionScore := fusionScore r;
     riskLevel := v; summary := summary r; flags := flags r;
     narrativeStrategy := narrativeStrategy r;
     emotionalTriggers := emotionalTriggers r;
     visualIntegrityScore := visualIntegrityScore r;
     visualIntegrityWarning := visualIntegrityWarning r;
     rebuttal := rebuttal r |}.

Definition set_visualIntegrityScore (v : Q) (r : AnalysisResult)
  : AnalysisResult :=
  {| riskScore := riskScore r; fusionScore := fusionScore r;
     riskLevel := riskLevel r; summary := summary r; flags := flags r;
     narrativeStrategy := narrativeStrategy r;
     emotionalTriggers := emotionalTriggers r;
     visualIntegrityScore := Some v;
     visualIntegrityWarning := visualIntegrityWarning r;
     rebuttal := rebuttal r |}.

Definition set_visualIntegrityWarning (v : string) (r : AnalysisResult)
  : AnalysisResult :=
  {| riskScore := riskScore r; fusionScore := fusionScore r;
     riskLevel := riskLevel r; summary := summary r; flags := flags r;
     narrativeStrategy := narrativeStrategy r;
     emotionalTriggers := emotionalTriggers r;
     visualIntegrityScore := visualIntegrityScore r;
     visualIntegrityWarning := Some v;
     rebuttal := rebuttal r |}.

Definition set_rebuttal (v : string) (r : AnalysisResult) : AnalysisResult :=
  {| riskScore := riskScore r; fusionScore := fusionScore r;
     riskLevel := riskLevel r; summary := summary r; flags := flags r;
     narrativeStrategy := narrativeStrategy r;
     emotionalTriggers := emotionalTriggers r;
     visualIntegrityScore := visualIntegrityScore r;
     visualIntegrityWarning := visualIntegrityWarning r;
     rebuttal := Some v |}.

(** A browser [File]: what the program reads of it. *)
Record File : Set := mkFile {
  name : string;
  size : Z;
  type : string
}.

(** ** Effects: thrown values, outbound calls, the trace *)

(** What a [throw] or a rejected promise carries. *)
Inductive Thrown : Set :=
| Error (message : string)
| ProgressEvent.

Inductive Outcome (A : Type) : Type :=
| Return (a : A)
| Throw (e : Thrown).
Arguments Return {A} a.
Arguments Throw {A} e.

(** One element of the [parts] array of the analysis request. *)
Inductive Part : Set :=
| TextPart (text : string)
| InlineData (mimeType : string) (data : option string).

(** The [contents] of a [generateContent] request: the parts of the
    analysis request (sent with the system instruction and the response
    schema) or the prompt of the rebuttal request. *)
Inductive Contents : Set :=
| Structured (parts : list Part)
| Prompt (text : string).

Inductive Event : Set :=
| ReadAsDataURL (f : File)
| GenerateContent (c : Contents)
| CheckDeepfake (f : File)
| ConsoleError (label : string).

(** The events of the authenticity path: reading the media and checking
    it. *)
Definition on_media (e : Event) : bool :=
  match e with
  | ReadAsDataURL _ | CheckDeepfake _ => true
  | GenerateContent _ | ConsoleError _ => false
  end.

(** The calls that leave the program; reading a local file and logging
    do not. *)
Definition is_outbound (e : Event) : bool :=
  match e with
  | GenerateContent _ | CheckDeepfake _ => true
  | ReadAsDataURL _ | ConsoleError _ => false
  end.

(** The collaborators of one run. *)
Record World : Type := mkWorld {
  (** [process.env.API_KEY] *)
  API_KEY : option string;
  (** [FileReader]: the data URL of a file, or the reader's error *)
  readAsDataURL : File -> Outcome string;
  (** [ai.models.generateContent]: the [text] of the response, or a
      rejection *)
  generateContent : Contents -> Outcome (option string);
  (** [JSON.parse] of a schema-constrained answer, taken to conform to
      [RESPONSE_SCHEMA]; an object that does not, which the cast of the
      source lets through, is outside this model *)
  JSON_parse : string -> Outcome Schema.t;
  (** [Math.random()] *)
  Math_random : Q
}.

(** A computation: from the trace so far to an outcome and the trace
    extended by the calls made. *)
Definition Eff (A : Type) : Type := list Event -> Outcome A * list Event.

Definition ret {A} (a : A) : Eff A := fun tr => (Return a, tr).

Definition throw {A} (e : Thrown) : Eff A := fun tr => (Throw e, tr).

Definition bind {A B} (m : Eff A) (k : A -> Eff B) : Eff B :=
  fun tr =>
    match m tr with
    | (Return a, tr') => k a tr'
    | (Throw e, tr') => (Throw e, tr')
    end.

(** [try { m } catch (e) { h e }]. *)
Definition try_catch {A} (m : Eff A) (h : Thrown -> Eff A) : Eff A :=
  fun tr =>
    match m tr with
    | (Return a, tr') => (Return a, tr')
    | (Throw e, tr') => h e tr'
    end.

Definition emit (e : Event) : Eff unit :=
  fun tr => (Return tt, (tr ++ [e])%list).

(** [await] of a promise that is settled with [o]. *)
Definition await {A} (o : Outcome A) : Eff A := fun tr => (o, tr).

Notation "x <- m ;; k" := (bind m (fun x => k))
  (at level 61, m at next level, right associativity).
Notation "m ;;; k" := (bind m (fun _ => k))
  (at level 61, right associativity).

(** Run a computation from the empty trace. *)
Definition run {A} (m : Eff A) : Outcome A * list Event := m [].

(** ** The service ([services/geminiService.ts]) *)

Import JsString JsNumber.

(** [checkDeepfake]: the stand-in forensic check, an integrity score
    drawn from the random source.  The product is taken exactly; in
    binary64 it is rounded, which can move the score of a draw by
    one. *)
Definition checkDeepfake (w : World) (file : File) : Eff Q :=
  emit (CheckDeepfake file) ;;;
  ret (Math_floor (Math_random w * (99 - 50 + 1)) + 50)%Q.

Definition rebuttal_unavailable : string :=
  "Rebuttal generation unavailable.".

Definition rebuttal_failed : string :=
  "Could not generate rebuttal at this time.".

(** The template literal of the rebuttal request. *)
Definition rebuttal_prompt (context : string) : string :=
  "Generate a sharp, three-sentence rebuttal based on general knowledge and verified facts refuting the following propaganda narrative: "
  ++ dquote ++ context ++ dquote ++ ". " ++ newline
  ++ "      Focus on objective reality and logic. Do not preach, just state the facts that counter the claim.".

(** [generateRebuttal]. *)
Definition generateRebuttal (w : World) (context : string) : Eff string :=
  try_catch
    (emit (GenerateContent (Prompt (rebuttal_prompt context))) ;;;
     response <- await (generateContent w (Prompt (rebuttal_prompt context))) ;;
     ret (opt_or_else response rebuttal_unavailable))
    (fun e =>
       emit (ConsoleError "Failed to generate rebuttal") ;;;
       ret rebuttal_failed).

(** [fileToBase64]: the data URL without its prefix, the piece after
    the first comma ([undefined] when there is none). *)
Definition fileToBase64 (w : World) (file : File) : Eff (option string) :=
  emit (ReadAsDataURL file) ;;;
  result <- await (readAsDataURL w file) ;;
  ret (nth_error (split_comma result) 1).

Definition visual_warning : string := "Potential AI Artifacts Detected".

Definition rebuttal_fallback_context : string :=
  "The uploaded media content.".

(** The fusion score logic of [analyzeContent], up to the assignment of
    [result.fusionScore]. *)
Definition fuse_scores (result : AnalysisResult) (deepfakeScore : option Q)
  : AnalysisResult :=
  let fusionScore := riskScore result in
  let '(fusionScore, result) :=
    match deepfakeScore with
    | Some deepfakeScore =>
        let manipulationRisk := (100 - deepfakeScore)%Q in
        let fusionScore :=
          Math_round ((riskScore result + manipulationRisk) / 2)%Q in
        let result := set_visualIntegrityScore deepfakeScore result in
        let result :=
          if ltb deepfakeScore 70
          then set_visualIntegrityWarning visual_warning result
          else result in
        let result :=
          if ltb deepfakeScore 70 && gtb (riskScore result) 85
          then set_riskLevel CRITICAL result
          else result in
        (fusionScore, result)
    | None => (fusionScore, result)
    end in
  set_fusionScore fusionScore result.

(** The context string of the rebuttal request. *)
Definition contextForRebuttal (result : AnalysisResult) (caption : string)
  : string :=
  or_else (or_else (summary result) caption) rebuttal_fallback_context.

(** The whole fusion step of [analyzeContent]: the score logic, then the
    rebuttal of a critical result. *)
Definition fuse (w : World) (result : AnalysisResult)
  (deepfakeScore : option Q) (caption : string) : Eff AnalysisResult :=
  let result := fuse_scores result deepfakeScore in
  if RiskLevel_eqb (riskLevel result) CRITICAL
  then
    text <- generateRebuttal w (contextForRebuttal result caption) ;;
    ret (set_rebuttal text result)
  else ret result.

Definition err_api_key : string := "API Key is missing.".

Definition err_no_input : string :=
  "Please provide at least a file or a caption to analyze.".

Definition err_no_text : string := "No response text received from Gemini.".

Definition err_analysis : string :=
  "Failed to analyze content. The model may have been blocked or the input format is invalid.".

(** The text part of the analysis request. *)
Definition caption_part (caption : string) : Part :=
  TextPart ("Analyze this social media caption: "
            ++ dquote ++ caption ++ dquote).

(** The [try] block of [analyzeContent]: the analysis request and the
    stand-in forensic check are started, both are awaited, the answer is
    parsed and fused. *)
Definition analysis (w : World) (file : option File) (caption : string)
  (parts : list Part) : Eff AnalysisResult :=
  emit (GenerateContent (Structured parts)) ;;;
  let geminiPromise := generateContent w (Structured parts) in
  deepfakeScore <-
    match file with
    | Some f => d <- checkDeepfake w f ;; ret (Some d)
    | None => ret None
    end ;;
  text <- await geminiPromise ;;
  match text with
  | Some text =>
      if truthy text then
        parsed <- await (JSON_parse w text) ;;
        fuse w (as_AnalysisResult parsed) deepfakeScore caption
      else throw (Error err_no_text)
  | None => throw (Error err_no_text)
  end.

(** The [catch] block of [analyzeContent]. *)
Definition analysis_failed (error : Thrown) : Eff AnalysisResult :=
  emit (ConsoleError "Analysis failed:") ;;;
  throw (Error err_analysis).

(** [analyzeContent]. *)
Definition analyzeContent (w : World) (file : option File) (caption : string)
  : Eff AnalysisResult :=
  if negb (opt_truthy (API_KEY w)) then throw (Error err_api_key)
  else
    let parts : list Part :=
      if truthy (trim caption) then [caption_part caption] else [] in
    parts <-
      match file with
      | Some f =>
          base64Data <- fileToBase64 w f ;;
          ret (parts ++ [InlineData (type f) base64Data])%list
      | None => ret parts
      end ;;
    if (List.length parts =? 0)%nat then throw (Error err_no_input)
    else
      try_catch (analysis w file caption parts) analysis_failed.

(** The score the stand-in forensic check gives in world [w], when there
    is a file. *)
Definition deepfakeScore_of (w : World) (file : option File) : option Q :=
  match file with
  | Some _ => Some (Math_floor (Math_random w * (99 - 50 + 1)) + 50)%Q
  | None => None
  end.

(** The forensic check as it shows in the trace, when there is a file. *)
Definition forensic_calls (file : option File) : list Event :=
  match file with
  | Some f => [CheckDeepfake f]
  | None => []
  end.

(** The reads [analyzeContent] makes of the media, as they show in the
    trace. *)
Definition media_reads (file : option File) : list Event :=
  match file with
  | Some f => [ReadAsDataURL f]
  | None => []
  end.

(** What the reader rejects with, when there is a file and its read
    fails. *)
Definition read_failure (w : World) (file : option File) : option Thrown :=
  match file with
  | Some f =>
      match readAsDataURL w f with
      | Throw e => Some e
      | Return _ => None
      end
  | None => None
  end.

(** The [parts] array [analyzeContent] builds: the caption if it is not
    blank, then the media if there is one and it was read. *)
Definition request_parts (w : World) (file : option File) (caption : string)
  : list Part :=
  ((if truthy (trim caption) then [caption_part caption] else [])
   ++ match file with
      | Some f =>
          match readAsDataURL w f with
          | Return url =>
              [InlineData (type f) (nth_error (split_comma url) 1)]
          | Throw _ => []
          end
      | None => []
      end)%list.

(** The analysis request for [parts] brings no report: it is rejected,
    or answers without text, or its text does not parse. *)
Definition upstream_failure (w : World) (parts : list Part) : Prop :=
  match generateContent w (Structured parts) with
  | Throw _ => True
  | Return None => True
  | Return (Some text) => text = "" \/ exists e, JSON_parse w text = Throw e
  end.

(** The string holds a comma. *)
Fixpoint has_comma (s : string) : bool :=
  match s with
  | EmptyString => false
  | String c s' => Ascii.eqb c ","%char || has_comma s'
  end.

(** ** The upload component ([components/FileUpload.tsx]) *)

(** 20MB limit for demo responsiveness. *)
Definition MAX_FILE_SIZE : Z := 20 * 1024 * 1024.

(** The state the component works on: its own [isDragging] and [error],
    and the [selectedFile] of its parent, which [onFileSelect] sets. *)
Record UploadState : Set := mkUpload {
  isDragging : bool;
  error : option string;
  selectedFile : option File
}.

Definition setIsDragging (b : bool) (st : UploadState) : UploadState :=
  {| isDragging := b; error := error st; selectedFile := selectedFile st |}.

Definition setError (e : option string) (st : UploadState) : UploadState :=
  {| isDragging := isDragging st; error := e;
     selectedFile := selectedFile st |}.

Definition onFileSelect (f : option File) (st : UploadState) : UploadState :=
  {| isDragging := isDragging st; error := error st; selectedFile := f |}.

Definition err_too_large : string := "File size exceeds 20MB limit.".

Definition err_unsupported : string :=
  "Only image and video files are supported.".

(** [validateAndSetFile]. *)
Definition validateAndSetFile (file : File) (st : UploadState)
  : UploadState :=
  if (size file >? MAX_FILE_SIZE)%Z then setError (Some err_too_large) st
  else if negb (startsWith "image/" (type file))
          && negb (startsWith "video/" (type file))
  then setError (Some err_unsupported) st
  else onFileSelect (Some file) (setError None st).

(** The icon of the selected file is the video one. *)
Definition shows_video_icon (f : File) : bool := startsWith "video" (type f).

(** [clearFile]. *)
Definition clearFile (st : UploadState) : UploadState :=
  setError None (onFileSelect None st).

(** What the user does to the component. *)
Inductive UploadAction : Set :=
| DragOver
| DragLeave
| Drop (files : list File)
| FileInput (files : option (list File))
| ClickClear.

(** The handlers of the component, by action: [handleDragOver],
    [handleDragLeave], [handleDrop], [handleFileInput] and the clear
    button. *)
Definition handle (a : UploadAction) (st : UploadState) : UploadState :=
  match a with
  | DragOver => setIsDragging true st
  | DragLeave => setIsDragging false st
  | Drop files =>
      let st := setIsDragging false st in
      match files with
      | file :: _ => validateAndSetFile file st
      | [] => st
      end
  | FileInput (Some (file :: _)) => validateAndSetFile file st
  | FileInput _ => st
  | ClickClear => clearFile st
  end.

(** The component as first rendered by [App]: no file, no error. *)
Definition initialUpload : UploadState :=
  {| isDragging := false; error := None; selectedFile := None |}.

(** The state after a sequence of actions. *)
Definition handle_all (acts : list UploadAction) (st : UploadState)
  : UploadState :=
  fold_left (fun st a => handle a st) acts st.

(** ** The application ([App.tsx]) *)

Module App.

(** [AnalysisState]. *)
Record AnalysisState : Set := mkState {
  isLoading : bool;
  error : option string;
  result : option AnalysisResult
}.

(** The state [App] starts with. *)
Definition initial : AnalysisState :=
  {| isLoading := false; error := None; result := None |}.

(** [err.message]: an [Error] carries one, the event of a failed read
    does not. *)
Definition message (err : Thrown) : option string :=
  match err with
  | Error m => Some m
  | ProgressEvent => None
  end.

Definition err_unexpected : string :=
  "An unexpected error occurred during analysis.".

(** The state set when a scan starts. *)
Definition loading : AnalysisState :=
  {| isLoading := true; error := None; result := None |}.

(** [handleAnalyze]: the states handed to [setAnalysis], in order. *)
Definition handleAnalyze (w : World) (file : option File) (caption : string)
  : Eff (list AnalysisState) :=
  if match file with Some _ => false | None => true end
     && negb (truthy (trim caption))
  then ret []
  else
    try_catch
      (result <- analyzeContent w file caption ;;
       ret [loading;
            {| isLoading := false; error := None; result := Some result |}])
      (fun err =>
         ret [loading;
              {| isLoading := false;
                 error := Some (opt_or_else (message err) err_unexpected);
                 result := None |}]).

(** The scan button is disabled. *)
Definition scan_disabled (analysis : AnalysisState) (file : option File)
  (caption : string) : bool :=
  isLoading analysis
  || (match file with Some _ => false | None => true end
      && negb (truthy (trim caption))).

End App.

(** ** The dashboard ([components/RiskDashboard.tsx]) *)

Module Dashboard.

(** [COLORS]. *)
Definition COLORS (level : RiskLevel) : string :=
  match level with
  | SAFE => "#10b981"
  | CAUTION => "#f59e0b"
  | SUSPICIOUS => "#f97316"
  | DANGEROUS => "#ef4444"
  | CRITICAL => "#7f1d1d"
  end.

(** [a >= b]. *)
Definition geb (a b : Q) : bool := Qle_bool b a.

(** [getGaugeColor]. *)
Definition getGaugeColor (score : Q) : string :=
  if ltb score 20 then COLORS SAFE
  else if ltb score 50 then COLORS CAUTION
  else if ltb score 80 then COLORS SUSPICIOUS
  else COLORS DANGEROUS.

(** [getIntegrityColor]: for visual integrity, higher is better. *)
Definition getIntegrityColor (score : Q) : string :=
  if geb score 90 then COLORS SAFE
  else if geb score 70 then COLORS CAUTION
  else COLORS DANGEROUS.

(** [gaugeColor]: a comparison with an unset score is false. *)
Definition gaugeColor (result : AnalysisResult) : string :=
  match fusionScore result with
  | Some score => getGaugeColor score
  | None => COLORS DANGEROUS
  end.

Definition isCritical (result : AnalysisResult) : bool :=
  RiskLevel_eqb (riskLevel result) CRITICAL.

(** The fill of the first cell of the gauge. *)
Definition gaugeFill (result : AnalysisResult) : string :=
  if isCritical result then COLORS DANGEROUS else gaugeColor result.

(** [gaugeData], for a result whose fusion score is set. *)
Definition gaugeData (result : AnalysisResult) : option (list (string * Q)) :=
  match fusionScore result with
  | Some score => Some [("Risk", score); ("Safe", (100 - score)%Q)]
  | None => None
  end.

(** The key of [SEVERITY_COLOR] the level badge is drawn with. *)
Definition badge (result : AnalysisResult) : Severity.t :=
  if RiskLevel_eqb (riskLevel result) SAFE then Severity.LOW
  else if RiskLevel_eqb (riskLevel result) CAUTION then Severity.MEDIUM
  else if RiskLevel_eqb (riskLevel result) SUSPICIOUS then Severity.HIGH
  else Severity.CRITICAL.

(** The rebuttal card: its text when it is drawn. *)
Definition rebuttalCard (result : AnalysisResult) : option string :=
  if isCritical result && opt_truthy (rebuttal result)
  then rebuttal result
  else None.

(** The visual integrity panel when it is drawn: the score, its colour
    and the warning under it. *)
Definition integrityPanel (result : AnalysisResult)
  : option (Q * string * option string) :=
  match visualIntegrityScore result with
  | Some score =>
      Some (score, getIntegrityColor score,
            if opt_truthy (visualIntegrityWarning result)
            then visualIntegrityWarning result
            else None)
  | None => None
  end.

End Dashboard.

(** ** The words of the specification, for comparison *)

Module Spec.

(** Round half up: the integer below [x], or the next one when the
    fractional part of [x] is one half or more. *)
Definition round_half_up (x : Q) : Z :=
  if Qle_bool (1 # 2) (x - inject_Z (Qfloor x))
  then (Qfloor x + 1)%Z
  else Qfloor x.

(** The context of a rebuttal by priority: the summary if it is not
    empty, else the caption if it is not empty, else the fallback. *)
Definition context_by_priority (summary caption : string) : string :=
  match summary, caption with
  | String _ _, _ => summary
  | EmptyString, String _ _ => caption
  | EmptyString, EmptyString => "The uploaded media content."
  end.

(** A media type is an image or a video type. *)
Definition image_or_video (mime : string) : Prop :=
  (exists sub, mime = "image/" ++ sub) \/ (exists sub, mime = "video/" ++ sub).

(** A file is acceptable when its size is within 20 MiB and its type
    is an image or a video type. *)
Definition acceptable (f : File) : Prop :=
  (size f <= 20 * 1024 * 1024)%Z /\ image_or_video (type f).

End Spec.


(** ** Sample inputs *)

Module Sample.

(** An assessment with the given score, level and summary. *)
Definition assessment (score : Q) (level : RiskLevel) (summary : string)
  : Schema.t :=
  {| Schema.riskScore := score;
     Schema.riskLevel := level;
     Schema.summary := summary;
     Schema.narrativeStrategy := Some "To provoke outrage";
     Schema.emotionalTriggers := Some ["fear"; "anger"];
     Schema.flags :=
       [ {| technique := "Loaded language";
            description := "All-caps call to share";
            severity := Severity.HIGH;
            location := None |} ] |}.

Definition png : File :=
  {| name := "frame.png"; size := 4096; type := "image/png" |}.

(** A world whose key is [key], whose analysis answers [a], whose
    rebuttal request is settled with [reply], and whose random source
    gives [rnd]. *)
Definition world (key : option string) (a : Schema.t)
  (reply : Outcome (option string)) (rnd : Q) : World :=
  {| API_KEY := key;
     readAsDataURL := fun _ => Return "data:image/png;base64,iVBORw0KGgo=";
     generateContent := fun c =>
       match c with
       | Structured _ => Return (Some "{...}")
       | Prompt _ => reply
       end;
     JSON_parse := fun _ => Return a;
     Math_random := rnd |}.

(** Score 90 with a random draw of one fifth: integrity 60. *)
Definition alarming : Schema.t := assessment 90 DANGEROUS "Fear appeal".

Definition critical : Schema.t := assessment 40 CRITICAL "Incitement".

Definition answering (text : string) : World :=
  world (Some "key") alarming (Return (Some text)) (1 # 5).

Definition failing : World :=
  world (Some "key") alarming (Throw (Error "503")) (1 # 5).

Definition keyless : World :=
  world None alarming (Return (Some "Facts.")) (1 # 5).

End Sample.

(** ** Further sample inputs *)

Module Scenario.

(** A world whose analysis service rejects every request. *)
Definition down : World :=
  {| API_KEY := Some "key";
     readAsDataURL := fun _ => Return "data:image/png;base64,iVBORw0KGgo=";
     generateContent := fun _ => Throw (Error "503");
     JSON_parse := fun _ => Return Sample.alarming;
     Math_random := 1 # 5 |}.

(** A world whose file reader fails. *)
Definition unreadable : World :=
  {| API_KEY := Some "key";
     readAsDataURL := fun _ => Throw ProgressEvent;
     generateContent := fun _ => Return (Some "{...}");
     JSON_parse := fun _ => Return Sample.alarming;
     Math_random := 1 # 5 |}.

End Scenario.

(** * Properties *)

(** ** Strings *)

Section StringFacts.

Lemma trimStart_empty_iff (s : string) :
  trimStart s = "" <-> all_whitespace s = true.
Proof.
  induction s as [| c s IH]; simpl.
  - split; reflexivity.
  - destruct (is_whitespace c); simpl.
    + exact IH.
    + split; discriminate.
Qed.

Lemma trimEnd_empty_iff (s : string) :
  trimEnd s = "" <-> all_whitespace s = true.
Proof.
  induction s as [| c s IH]; simpl.
  - split; reflexivity.
  - destruct (trimEnd s) as [| c' t] eqn:E.
    + destruct (is_whitespace c); simpl.
      * split; intros _; [apply IH |]; reflexivity.
      * split; discriminate.
    + split; [discriminate |].
      intros H. apply andb_true_iff in H as [_ H].
      apply IH in H. discriminate.
Qed.

(** A caption that has been stripped at its start is all whitespace
    only if nothing is left of it. *)
Lemma trimStart_all_whitespace (s : string) :
  all_whitespace (trimStart s) = true -> trimStart s = "".
Proof.
  induction s as [| c s IH]; simpl; [reflexivity |].
  destruct (is_whitespace c) eqn:E; [exact IH |].
  simpl. rewrite E. discriminate.
Qed.

Lemma trim_empty_iff (s : string) :
  trim s = "" <-> all_whitespace s = true.
Proof.
  unfold trim. rewrite trimEnd_empty_iff. split.
  - intros H. apply trimStart_empty_iff, trimStart_all_whitespace, H.
  - intros H. apply trimStart_empty_iff in H. rewrite H. reflexivity.
Qed.

Lemma truthy_trim (s : string) :
  truthy (trim s) = negb (all_whitespace s).
Proof.
  destruct (all_whitespace s) eqn:E.
  - apply trim_empty_iff in E. rewrite E. reflexivity.
  - destruct (trim s) eqn:T; [| reflexivity].
    apply trim_empty_iff in T. congruence.
Qed.

Lemma truthy_false_iff (s : string) : truthy s = false <-> s = "".
Proof. destruct s; simpl; split; congruence. Qed.

Lemma startsWith_iff (p s : string) :
  startsWith p s = true <-> exists rest, s = p ++ rest.
Proof.
  revert s. induction p as [| a p IH]; intros s; simpl.
  - split; [intros _; exists s; reflexivity | reflexivity].
  - destruct s as [| b s].
    + split; [discriminate | intros [rest H]; discriminate].
    + rewrite andb_true_iff, IH. split.
      * intros [Hab [rest ->]]. apply Ascii.eqb_eq in Hab. subst.
        exists rest. reflexivity.
      * intros [rest H]. injection H as -> ->. split.
        -- apply Ascii.eqb_refl.
        -- exists rest. reflexivity.
Qed.

Lemma or_else_priority (summary caption : string) :
  or_else (or_else summary caption) rebuttal_fallback_context
  = Spec.context_by_priority summary caption.
Proof. destruct summary, caption; reflexivity. Qed.

End StringFacts.

(** ** Numbers *)

Section NumberFacts.

Lemma ltb_lt (a b : Q) : ltb a b = true <-> (a < b)%Q.
Proof. unfold ltb, Qlt. apply Z.ltb_lt. Qed.

Lemma ltb_ge (a b : Q) : ltb a b = false <-> (b <= a)%Q.
Proof. unfold ltb, Qle. rewrite Z.ltb_ge. reflexivity. Qed.

Lemma gtb_gt (a b : Q) : gtb a b = true <-> (b < a)%Q.
Proof. apply ltb_lt. Qed.

(** The floor of [y] is the one integer [n] with [n <= y < n + 1]. *)
Lemma Qfloor_unique (y : Q) (n : Z) :
  (inject_Z n <= y)%Q -> (y < inject_Z (n + 1))%Q -> Qfloor y = n.
Proof.
  intros Hlo Hhi.
  assert (Hle : (n <= Qfloor y)%Z).
  { rewrite <- (Qfloor_Z n). apply Qfloor_resp_le, Hlo. }
  assert (Hlt : (Qfloor y < n + 1)%Z).
  { rewrite Zlt_Qlt. eapply Qle_lt_trans; [apply Qfloor_le | exact Hhi]. }
  lia.
Qed.

(** [Math.round] rounds half up. *)
Lemma Math_round_half_up (x : Q) :
  Math_round x = inject_Z (Spec.round_half_up x).
Proof.
  unfold Math_round, Spec.round_half_up. f_equal.
  pose proof (Qfloor_le x) as Hlo.
  pose proof (Qlt_floor x) as Hhi.
  rewrite inject_Z_plus in Hhi.
  destruct (Qle_bool (1 # 2) (x - inject_Z (Qfloor x))) eqn:E.
  - apply Qle_bool_iff in E.
    apply Qfloor_unique; rewrite ?inject_Z_plus;
      change (inject_Z 1) with 1%Q in *; lra.
  - assert (H : ~ (1 # 2 <= x - inject_Z (Qfloor x))%Q).
    { intros H. apply Qle_bool_iff in H. congruence. }
    apply Qfloor_unique; rewrite ?inject_Z_plus;
      change (inject_Z 1) with 1%Q in *; lra.
Qed.

(** The rounded value is the nearest integer, a tie going up. *)
Lemma round_half_up_nearest (x : Q) :
  (x - (1 # 2) < inject_Z (Spec.round_half_up x) <= x + (1 # 2))%Q.
Proof.
  rewrite <- Math_round_half_up. unfold Math_round.
  pose proof (Qfloor_le (x + (1 # 2))) as Hlo.
  pose proof (Qlt_floor (x + (1 # 2))) as Hhi.
  rewrite inject_Z_plus in Hhi. change (inject_Z 1) with 1%Q in Hhi. lra.
Qed.

Lemma Math_round_comp (x y : Q) : (x == y)%Q -> Math_round x = Math_round y.
Proof.
  intros H. unfold Math_round. f_equal. apply Qfloor_comp.
  rewrite H. reflexivity.
Qed.

End NumberFacts.

(** ** The fusion step *)

Lemma RiskLevel_eqb_spec (a b : RiskLevel) :
  reflect (a = b) (RiskLevel_eqb a b).
Proof. destruct a, b; simpl; constructor; congruence. Qed.

(** [generateRebuttal] by the settlement of its request. *)
Lemma generateRebuttal_run (w : World) (context : string) (tr : list Event) :
  generateRebuttal w context tr =
  let request := GenerateContent (Prompt (rebuttal_prompt context)) in
  match generateContent w (Prompt (rebuttal_prompt context)) with
  | Return response =>
      (Return (opt_or_else response rebuttal_unavailable),
       (tr ++ [request])%list)
  | Throw _ =>
      (Return rebuttal_failed,
       (tr ++ [request; ConsoleError "Failed to generate rebuttal"])%list)
  end.
Proof.
  unfold generateRebuttal, try_catch, bind, emit, await, ret.
  destruct (generateContent w (Prompt (rebuttal_prompt context))); simpl.
  - reflexivity.
  - rewrite <- app_assoc. reflexivity.
Qed.

Lemma generateRebuttal_returns (w : World) (context : string)
  (tr : list Event) :
  exists text more,
    generateRebuttal w context tr
    = (Return text,
       (tr ++ GenerateContent (Prompt (rebuttal_prompt context)) :: more)%list)
    /\ Forall (fun e => is_outbound e = false) more
    /\ Forall (fun e => on_media e = false) more.
Proof.
  rewrite generateRebuttal_run. cbv zeta.
  destruct (generateContent w (Prompt (rebuttal_prompt context))).
  - eexists _, []. split; [reflexivity | split; constructor].
  - eexists _, [_]. split; [reflexivity |]. split; repeat constructor.
Qed.

(** The fusion step by the level the score logic leaves. *)
Lemma fuse_critical (w : World) r d caption tr :
  riskLevel (fuse_scores r d) = CRITICAL ->
  fuse w r d caption tr =
  match generateRebuttal w (contextForRebuttal (fuse_scores r d) caption) tr
  with
  | (Return text, tr') => (Return (set_rebuttal text (fuse_scores r d)), tr')
  | (Throw e, tr') => (Throw e, tr')
  end.
Proof.
  intros H. unfold fuse. cbv zeta. rewrite H. reflexivity.
Qed.

Lemma fuse_not_critical (w : World) r d caption tr :
  riskLevel (fuse_scores r d) <> CRITICAL ->
  fuse w r d caption tr = (Return (fuse_scores r d), tr).
Proof.
  intros H. unfold fuse. cbv zeta.
  destruct (RiskLevel_eqb_spec (riskLevel (fuse_scores r d)) CRITICAL).
  - contradiction.
  - reflexivity.
Qed.

(** Case analysis on the level the score logic leaves for [r] and [d]:
    every run of the fusion step in the goal is unfolded accordingly. *)
Ltac by_level r d E :=
  destruct (RiskLevel_eqb_spec (riskLevel (fuse_scores r d)) CRITICAL)
    as [E | E];
  [ repeat rewrite (fuse_critical _ r d _ _ E)
  | repeat rewrite (fuse_not_critical _ r d _ _ E) ].

(** The properties the score logic never touches. *)
Lemma fuse_scores_copies r d :
  riskScore (fuse_scores r d) = riskScore r
  /\ summary (fuse_scores r d) = summary r
  /\ flags (fuse_scores r d) = flags r
  /\ narrativeStrategy (fuse_scores r d) = narrativeStrategy r
  /\ emotionalTriggers (fuse_scores r d) = emotionalTriggers r
  /\ rebuttal (fuse_scores r d) = rebuttal r.
Proof.
  unfold fuse_scores. destruct d as [d |]; simpl.
  - destruct (ltb d 70); simpl;
      destruct (gtb (riskScore r) 85); simpl; repeat split.
  - repeat split.
Qed.

(** The fusion step returns, and its result is the one of the score
    logic but for [rebuttal]. *)
Lemma fuse_returns (w : World) r d caption tr :
  exists out tr',
    fuse w r d caption tr = (Return out, tr')
    /\ riskScore out = riskScore (fuse_scores r d)
    /\ fusionScore out = fusionScore (fuse_scores r d)
    /\ riskLevel out = riskLevel (fuse_scores r d)
    /\ summary out = summary (fuse_scores r d)
    /\ flags out = flags (fuse_scores r d)
    /\ narrativeStrategy out = narrativeStrategy (fuse_scores r d)
    /\ emotionalTriggers out = emotionalTriggers (fuse_scores r d)
    /\ visualIntegrityScore out = visualIntegrityScore (fuse_scores r d)
    /\ visualIntegrityWarning out
       = visualIntegrityWarning (fuse_scores r d).
Proof.
  by_level r d E.
  - destruct (generateRebuttal_returns w
                (contextForRebuttal (fuse_scores r d) caption) tr)
      as (text & more & -> & _).
    eexists _, _. split; [reflexivity |]. simpl. repeat split.
  - eexists _, _. split; [reflexivity |]. repeat split.
Qed.

Section ScoreLogic.

Variables (r : AnalysisResult) (d : Q).

Lemma fuse_scores_riskLevel :
  riskLevel (fuse_scores r (Some d))
  = if ltb d 70 && gtb (riskScore r) 85 then CRITICAL else riskLevel r.
Proof.
  unfold fuse_scores. simpl.
  destruct (ltb d 70); simpl; destruct (gtb (riskScore r) 85); reflexivity.
Qed.

Lemma fuse_scores_fusionScore :
  fusionScore (fuse_scores r (Some d))
  = Some (Math_round ((riskScore r + (100 - d)) / 2)).
Proof.
  unfold fuse_scores. simpl.
  destruct (ltb d 70); simpl; destruct (gtb (riskScore r) 85); reflexivity.
Qed.

Lemma fuse_scores_visualIntegrityScore :
  visualIntegrityScore (fuse_scores r (Some d)) = Some d.
Proof.
  unfold fuse_scores. simpl.
  destruct (ltb d 70); simpl; destruct (gtb (riskScore r) 85); reflexivity.
Qed.

Lemma fuse_scores_visualIntegrityWarning :
  visualIntegrityWarning (fuse_scores r (Some d))
  = if ltb d 70 then Some visual_warning else visualIntegrityWarning r.
Proof.
  unfold fuse_scores. simpl.
  destruct (ltb d 70); simpl; destruct (gtb (riskScore r) 85); reflexivity.
Qed.

End ScoreLogic.

(** C1. With an authenticity signal present, the fusion step sets the
    risk level to CRITICAL when the integrity score is below 70 and the
    contextual risk score is above 85; when one of the two conditions
    fails, or both, the level of the analyzer is passed through
    unchanged. *)
Theorem fuse_escalates_on_both_conditions_only
  (w : World) (a : Schema.t) (d : Q) (caption : string) (tr : list Event) :
  exists out tr',
    fuse w (as_AnalysisResult a) (Some d) caption tr = (Return out, tr')
    /\ ((d < 70 /\ 85 < Schema.riskScore a)%Q -> riskLevel out = CRITICAL)
    /\ (~ (d < 70 /\ 85 < Schema.riskScore a)%Q ->
        riskLevel out = Schema.riskLevel a).
Proof.
  destruct (fuse_returns w (as_AnalysisResult a) (Some d) caption tr)
    as (out & tr' & E & _ & _ & L & _).
  exists out, tr'. split; [exact E |].
  rewrite L, fuse_scores_riskLevel. simpl riskScore. split.
  - intros [Hd Hr]. apply ltb_lt in Hd. apply gtb_gt in Hr.
    rewrite Hd, Hr. reflexivity.
  - intros Hn.
    destruct (ltb d 70) eqn:Ed; [| reflexivity].
    destruct (gtb (Schema.riskScore a) 85) eqn:Er; [| reflexivity].
    exfalso. apply Hn. split; [apply ltb_lt, Ed | apply gtb_gt, Er].
Qed.

(** The escalation examples of the specification: score 90 with
    integrity 60 is escalated; 90 with 75 and 80 with 50 are not. *)
Example escalation_90_60 :
  riskLevel (fuse_scores (as_AnalysisResult Sample.alarming) (Some 60))
  = CRITICAL.
Proof. reflexivity. Qed.

Example no_escalation_90_75 :
  let out := fuse_scores (as_AnalysisResult Sample.alarming) (Some 75) in
  riskLevel out = DANGEROUS /\ fusionScore out = Some 58
  /\ visualIntegrityWarning out = None.
Proof. repeat split. Qed.

Example no_escalation_80_50 :
  let out :=
    fuse_scores
      (as_AnalysisResult (Sample.assessment 80 SUSPICIOUS "Loaded words"))
      (Some 50) in
  riskLevel out = SUSPICIOUS /\ fusionScore out = Some 65
  /\ visualIntegrityWarning out = Some "Potential AI Artifacts Detected".
Proof. repeat split. Qed.








(** C4. Without an authenticity signal the fusion score is the
    contextual risk score, the visual integrity score and warning stay
    unset, and the risk level is the one of the analyzer. *)
Theorem fuse_without_authenticity
  (w : World) (a : Schema.t) (caption : string) (tr : list Event) :
  exists out tr',
    fuse w (as_AnalysisResult a) None caption tr = (Return out, tr')
    /\ fusionScore out = Some (Schema.riskScore a)
    /\ visualIntegrityScore out = None
    /\ visualIntegrityWarning out = None
    /\ riskLevel out = Schema.riskLevel a.
Proof.
  destruct (fuse_returns w (as_AnalysisResult a) None caption tr)
    as (out & tr' & E & _ & F & L & _ & _ & _ & _ & V & W).
  exists out, tr'. rewrite F, L, V, W. repeat split. exact E.
Qed.

(** C5. With an authenticity signal present the visual integrity score
    is the integrity score; the visual integrity warning is
    "Potential AI Artifacts Detected" when the integrity score is below
    70 and stays unset when it is 70 or more. *)
Theorem fuse_visual_integrity
  (w : World) (a : Schema.t) (d : Q) (caption : string) (tr : list Event) :
  exists out tr',
    fuse w (as_AnalysisResult a) (Some d) caption tr = (Return out, tr')
    /\ visualIntegrityScore out = Some d
    /\ ((d < 70)%Q ->
        visualIntegrityWarning out = Some "Potential AI Artifacts Detected")
    /\ ((70 <= d)%Q -> visualIntegrityWarning out = None).
Proof.
  destruct (fuse_returns w (as_AnalysisResult a) (Some d) caption tr)
    as (out & tr' & E & _ & _ & _ & _ & _ & _ & _ & V & W).
  exists out, tr'. split; [exact E |].
  rewrite V, W, fuse_scores_visualIntegrityScore,
    fuse_scores_visualIntegrityWarning.
  split; [reflexivity |]. split.
  - intros H. apply ltb_lt in H. rewrite H. reflexivity.
  - intros H. apply ltb_ge in H. rewrite H. reflexivity.
Qed.

(** ** The rebuttal *)

(** The context the fusion step hands to the rebuttal request follows the
    priority of the specification. *)
Lemma contextForRebuttal_priority (a : Schema.t) (d : option Q)
  (caption : string) :
  contextForRebuttal (fuse_scores (as_AnalysisResult a) d) caption
  = Spec.context_by_priority (Schema.summary a) caption.
Proof.
  unfold contextForRebuttal.
  destruct (fuse_scores_copies (as_AnalysisResult a) d) as (_ & -> & _).
  apply or_else_priority.
Qed.

(** C3. The rebuttal request is made exactly when the level after the
    score logic is CRITICAL.  Its context is the summary if that is not
    empty, else the caption if that is not empty, else
    "The uploaded media content."; what the generator returns is stored in
    [rebuttal].  At any other level no request is made and [rebuttal]
    stays unset. *)
Theorem rebuttal_iff_critical
  (w : World) (a : Schema.t) (d : option Q) (caption : string)
  (tr : list Event) :
  exists out tr',
    fuse w (as_AnalysisResult a) d caption tr = (Return out, tr')
    /\ (riskLevel out = CRITICAL ->
        let context := Spec.context_by_priority (Schema.summary a) caption in
        exists text more,
          generateRebuttal w context tr = (Return text, tr')
          /\ tr' = (tr ++ GenerateContent (Prompt (rebuttal_prompt context))
                       :: more)%list
          /\ Forall (fun e => is_outbound e = false) more
          /\ rebuttal out = Some text)
    /\ (riskLevel out <> CRITICAL -> tr' = tr /\ rebuttal out = None).
Proof.
  by_level (as_AnalysisResult a) d E.
  - rewrite contextForRebuttal_priority.
    destruct (generateRebuttal_returns w
                (Spec.context_by_priority (Schema.summary a) caption) tr)
      as (text & more & R & Hmore & _).
    rewrite R. eexists _, _. split; [reflexivity |]. split.
    + intros _. cbv zeta. exists text, more. rewrite R. repeat split.
      exact Hmore.
    + simpl. intros H. contradiction.
  - eexists _, _. split; [reflexivity |]. split.
    + intros H. contradiction.
    + intros _. split; [reflexivity |].
      destruct (fuse_scores_copies (as_AnalysisResult a) d)
        as (_ & _ & _ & _ & _ & ->).
      reflexivity.
Qed.

(** A level that is CRITICAL from the analyzer alone, scores that would
    not escalate: the rebuttal is requested, with the summary as its
    context. *)
Example rebuttal_of_an_analyzer_critical :
  run (fuse (Sample.answering "Facts.") (as_AnalysisResult Sample.critical)
         (Some 80%Q) "A caption")
  = (Return (set_rebuttal "Facts."
               (fuse_scores (as_AnalysisResult Sample.critical) (Some 80%Q))),
     [GenerateContent (Prompt (rebuttal_prompt "Incitement"))]).
Proof. reflexivity. Qed.

(** C6. The rebuttal request never throws: when the call is rejected the
    text is "Could not generate rebuttal at this time.", when it answers
    without text or with an empty text it is
    "Rebuttal generation unavailable."; the fusion step returns all
    the same, with that text in [rebuttal] when the level is CRITICAL. *)
Theorem generateRebuttal_never_throws
  (w : World) (context : string) (tr : list Event) :
  exists text tr',
    generateRebuttal w context tr = (Return text, tr')
    /\ (forall e,
          generateContent w (Prompt (rebuttal_prompt context)) = Throw e ->
          text = "Could not generate rebuttal at this time.")
    /\ (generateContent w (Prompt (rebuttal_prompt context)) = Return None
        \/ generateContent w (Prompt (rebuttal_prompt context))
           = Return (Some "") ->
        text = "Rebuttal generation unavailable.")
    /\ (forall a d caption,
          context = Spec.context_by_priority (Schema.summary a) caption ->
          exists out tr'',
            fuse w (as_AnalysisResult a) d caption tr = (Return out, tr'')
            /\ (riskLevel out = CRITICAL ->
                rebuttal out = Some text /\ tr'' = tr')).
Proof.
  destruct (generateRebuttal_returns w context tr) as (text & more & R & _).
  exists text, (tr ++ GenerateContent (Prompt (rebuttal_prompt context))
                   :: more)%list.
  split; [exact R |].
  pose proof R as S. rewrite generateRebuttal_run in S. cbv zeta in S.
  unfold rebuttal_failed, rebuttal_unavailable in S.
  split; [| split].
  - intros e He. rewrite He in S. congruence.
  - intros [He | He]; rewrite He in S;
      unfold opt_or_else, or_else in S; simpl in S; congruence.
  - intros a d caption ->.
    by_level (as_AnalysisResult a) d E.
    + rewrite contextForRebuttal_priority, R.
      eexists _, _. split; [reflexivity |]. intros _. split; reflexivity.
    + eexists _, _. split; [reflexivity |]. intros H. contradiction.
Qed.

(** A whole run in which the rebuttal request is rejected: the analysis
    succeeds, the placeholder is in [rebuttal]. *)
Example analysis_survives_a_failed_rebuttal :
  exists out tr,
    run (analyzeContent Sample.failing (Some Sample.png) "A caption")
    = (Return out, tr)
    /\ riskLevel out = CRITICAL
    /\ fusionScore out = Some 65%Q
    /\ rebuttal out = Some "Could not generate rebuttal at this time.".
Proof.
  eexists _, _. split; [vm_compute; reflexivity |].
  split; [reflexivity |]. split; reflexivity.
Qed.

(** ** Determinism *)



(** ** The request checks of [analyzeContent] *)

Section RequestFacts.

Variable w : World.

(** The calls of the fusion step are none of the authenticity path. *)
Lemma fuse_trace r d caption tr :
  exists out more,
    fuse w r d caption tr = (Return out, (tr ++ more)%list)
    /\ Forall (fun e => on_media e = false) more.
Proof.
  by_level r d E.
  - destruct (generateRebuttal_returns w
                (contextForRebuttal (fuse_scores r d) caption) tr)
      as (text & more & -> & _ & Hm).
    eexists _, _. split; [reflexivity |].
    constructor; [reflexivity | exact Hm].
  - exists (fuse_scores r d), []. rewrite app_nil_r.
    split; [reflexivity | constructor].
Qed.

(** The [try] block by the settlement of the analysis request. *)
Lemma analysis_run file caption parts tr :
  analysis w file caption parts tr =
  let tr1 :=
    (tr ++ GenerateContent (Structured parts) :: forensic_calls file)%list in
  match generateContent w (Structured parts) with
  | Return (Some text) =>
      if truthy text then
        match JSON_parse w text with
        | Return parsed =>
            fuse w (as_AnalysisResult parsed) (deepfakeScore_of w file)
              caption tr1
        | Throw e => (Throw e, tr1)
        end
      else (Throw (Error err_no_text), tr1)
  | Return None => (Throw (Error err_no_text), tr1)
  | Throw e => (Throw e, tr1)
  end.
Proof.
  unfold analysis, bind, emit, await, checkDeepfake, ret, throw.
  destruct file as [f |]; simpl;
    rewrite <- ?app_assoc; simpl;
    destruct (generateContent w (Structured parts)) as [[text |] | e];
    try reflexivity;
    destruct (truthy text); try reflexivity;
    destruct (JSON_parse w text); reflexivity.
Qed.

(** The guarded analysis: the request is sent first, the forensic check
    is started exactly when there is a file, and the only error that
    leaves is the generic one. *)
Lemma guarded_analysis_trace file caption parts tr :
  exists o more,
    try_catch (analysis w file caption parts) analysis_failed tr
    = (o, (tr ++ GenerateContent (Structured parts)
              :: forensic_calls file ++ more)%list)
    /\ Forall (fun e => on_media e = false) more
    /\ (forall e, o = Throw e -> e = Error err_analysis).
Proof.
  set (tr1 :=
         (tr ++ GenerateContent (Structured parts)
             :: forensic_calls file)%list).
  assert (Shape : forall more,
             ((tr1 ++ more)
              = tr ++ GenerateContent (Structured parts)
                   :: forensic_calls file ++ more)%list).
  { intros more. unfold tr1. rewrite <- app_assoc. reflexivity. }
  assert (Caught : forall e0,
             exists o more,
               analysis_failed e0 tr1 = (o, (tr1 ++ more)%list)
               /\ Forall (fun e => on_media e = false) more
               /\ (forall e, o = Throw e -> e = Error err_analysis)).
  { intros e0.
    exists (Throw (Error err_analysis)), [ConsoleError "Analysis failed:"].
    split; [reflexivity |]. split; [repeat constructor |].
    intros e H. congruence. }
  unfold try_catch. rewrite analysis_run. cbv zeta. fold tr1.
  destruct (generateContent w (Structured parts)) as [[text |] | e0].
  - destruct (truthy text).
    + destruct (JSON_parse w text) as [parsed | e1].
      * destruct (fuse_trace (as_AnalysisResult parsed)
                    (deepfakeScore_of w file) caption tr1)
          as (out & more & -> & Hm).
        exists (Return out), more. rewrite Shape.
        split; [reflexivity |]. split; [exact Hm | discriminate].
      * destruct (Caught e1) as (o & more & -> & Hm & He).
        exists o, more. rewrite Shape. repeat split; assumption.
    + destruct (Caught (Error err_no_text)) as (o & more & -> & Hm & He).
      exists o, more. rewrite Shape. repeat split; assumption.
  - destruct (Caught (Error err_no_text)) as (o & more & -> & Hm & He).
    exists o, more. rewrite Shape. repeat split; assumption.
  - destruct (Caught e0) as (o & more & -> & Hm & He).
    exists o, more. rewrite Shape. repeat split; assumption.
Qed.

End RequestFacts.

(** C7. A request with no file and an empty or whitespace-only caption
    is rejected with an error before any call is made (with the key
    configured, by the input check itself).  A request with a caption
    alone passes the check: the analysis request is sent with the caption
    as its only part and the authenticity path is not taken.  A request
    with a file alone passes it too, once the file is read: the analysis
    request is sent with the media as its only part and the forensic
    check is started. *)
Theorem analyzeContent_input_check :
  (forall w caption,
      all_whitespace caption = true ->
      exists e,
        run (analyzeContent w None caption) = (Throw e, [])
        /\ (opt_truthy (API_KEY w) = true ->
            e = Error
                  "Please provide at least a file or a caption to analyze."))
  /\ (forall w caption,
         opt_truthy (API_KEY w) = true ->
         all_whitespace caption = false ->
         exists o more,
           run (analyzeContent w None caption)
           = (o, GenerateContent (Structured [caption_part caption]) :: more)
           /\ Forall (fun e => on_media e = false) more
           /\ (forall e, o = Throw e -> e = Error err_analysis))
  /\ (forall w f caption url,
         opt_truthy (API_KEY w) = true ->
         all_whitespace caption = true ->
         readAsDataURL w f = Return url ->
         exists o more,
           run (analyzeContent w (Some f) caption)
           = (o, ReadAsDataURL f
                   :: GenerateContent
                        (Structured
                           [InlineData (type f)
                              (nth_error (split_comma url) 1)])
                   :: CheckDeepfake f :: more)
           /\ Forall (fun e => on_media e = false) more
           /\ (forall e, o = Throw e -> e = Error err_analysis)).
Proof.
  split; [| split].
  - intros w caption Hws. unfold run, analyzeContent.
    rewrite truthy_trim, Hws.
    destruct (opt_truthy (API_KEY w)); simpl.
    + eexists. split; [reflexivity |]. intros _. reflexivity.
    + eexists. split; [reflexivity |]. discriminate.
  - intros w caption Hkey Hws. unfold run, analyzeContent.
    rewrite truthy_trim, Hws, Hkey. simpl. unfold bind, ret.
    simpl.
    destruct (guarded_analysis_trace w None caption [caption_part caption] [])
      as (o & more & E & Hm & He).
    exists o, more. rewrite E. repeat split; assumption.
  - intros w f caption url Hkey Hws Hread. unfold run, analyzeContent.
    rewrite truthy_trim, Hws, Hkey. simpl.
    unfold bind, fileToBase64, bind, emit, await, ret.
    rewrite Hread. simpl.
    destruct (guarded_analysis_trace w (Some f) caption
                [InlineData (type f) (nth_error (split_comma url) 1)]
                [ReadAsDataURL f])
      as (o & more & E & Hm & He).
    exists o, more. split; [exact E | split; assumption].
Qed.

Lemma analyzeContent_input_check_witness :
  (exists e,
      run (analyzeContent (Sample.answering "Facts.") None "   ")
      = (Throw e, [])
      /\ e = Error "Please provide at least a file or a caption to analyze.")
  /\ (exists o more,
         run (analyzeContent (Sample.answering "Facts.") None "Share NOW")
         = (o, GenerateContent (Structured [caption_part "Share NOW"])
                 :: more))
  /\ (exists o more,
         run (analyzeContent (Sample.answering "Facts.") (Some Sample.png) "")
         = (o, ReadAsDataURL Sample.png
                 :: GenerateContent
                      (Structured
                         [InlineData "image/png" (Some "iVBORw0KGgo=")])
                 :: CheckDeepfake Sample.png :: more)).
Proof.
  destruct analyzeContent_input_check as (Hempty & Hcaption & Hmedia).
  split; [| split].
  - destruct (Hempty (Sample.answering "Facts.") "   " eq_refl)
      as (e & E & He).
    exists e. split; [exact E | exact (He eq_refl)].
  - destruct (Hcaption (Sample.answering "Facts.") "Share NOW"
                eq_refl eq_refl)
      as (o & more & E & _).
    exists o, more. exact E.
  - destruct (Hmedia (Sample.answering "Facts.") Sample.png ""
                "data:image/png;base64,iVBORw0KGgo=" eq_refl eq_refl eq_refl)
      as (o & more & E & _).
    exists o, more. exact E.
Defined.

(** C10. Without an API key (unset, or empty) every request, the
    all-empty one too, is answered by the error "API Key is missing.",
    before the input check and before any call; the error is not the one
    of the input check. *)
Theorem analyzeContent_missing_key
  (w : World) (file : option File) (caption : string) :
  API_KEY w = None \/ API_KEY w = Some "" ->
  run (analyzeContent w file caption)
  = (Throw (Error "API Key is missing."), [])
  /\ Error "API Key is missing." <> Error err_no_input.
Proof.
  intros Hkey. split; [| discriminate].
  unfold run, analyzeContent.
  destruct Hkey as [-> | ->]; reflexivity.
Qed.

Lemma analyzeContent_missing_key_witness :
  run (analyzeContent Sample.keyless None "")
  = (Throw (Error "API Key is missing."), []).
Proof.
  apply (analyzeContent_missing_key Sample.keyless None "").
  left. reflexivity.
Defined.

(** ** The validation of a submitted file *)

Section UploadFacts.

Lemma image_or_video_iff (mime : string) :
  Spec.image_or_video mime
  <-> startsWith "image/" mime = true \/ startsWith "video/" mime = true.
Proof.
  unfold Spec.image_or_video. rewrite !startsWith_iff. reflexivity.
Qed.


Lemma validateAndSetFile_selected file st :
  selectedFile (validateAndSetFile file st) = selectedFile st
  \/ (selectedFile (validateAndSetFile file st) = Some file
      /\ Spec.acceptable file).
Proof.
  unfold validateAndSetFile, Spec.acceptable.
  destruct (Z.gtb_spec (size file) MAX_FILE_SIZE) as [Hbig | Hfit].
  - left. reflexivity.
  - destruct (negb (startsWith "image/" (type file))
              && negb (startsWith "video/" (type file))) eqn:E.
    + left. reflexivity.
    + right. split; [reflexivity |]. split; [exact Hfit |].
      apply image_or_video_iff.
      destruct (startsWith "image/" (type file)); [left; reflexivity |].
      destruct (startsWith "video/" (type file)); [right; reflexivity |].
      discriminate.
Qed.

(** Whatever the user does, the file the component shows as selected,
    the one [App] hands to [analyzeContent], has passed the
    validation. *)
Lemma selected_file_acceptable (acts : list UploadAction) :
  forall st,
    (forall f, selectedFile st = Some f -> Spec.acceptable f) ->
    forall f, selectedFile (handle_all acts st) = Some f -> Spec.acceptable f.
Proof.
  unfold handle_all.
  induction acts as [| a acts IH]; intros st Inv; simpl; [exact Inv |].
  apply IH. intros f.
  destruct a as [| | [| file files] | [[| file files] |] |]; simpl;
    try exact (Inv f);
    try discriminate;
    match goal with
    | |- context [validateAndSetFile ?x ?s] =>
        destruct (validateAndSetFile_selected x s) as [-> | [-> Hok]];
        [exact (Inv f) | intros H; injection H as <-; exact Hok]
    end.
Qed.

End UploadFacts.


(** A frame of 25 MiB, a text file and a small frame. *)
Example validation_samples :
  let big := {| name := "clip.mp4"; size := 25 * 1024 * 1024;
                type := "video/mp4" |} in
  let text := {| name := "note.txt"; size := 12; type := "text/plain" |} in
  validateAndSetFile big initialUpload
  = {| isDragging := false;
       error := Some "File size exceeds 20MB limit.";
       selectedFile := None |}
  /\ validateAndSetFile text initialUpload
     = {| isDragging := false;
          error := Some "Only image and video files are supported.";
          selectedFile := None |}
  /\ validateAndSetFile Sample.png (validateAndSetFile text initialUpload)
     = {| isDragging := false; error := None;
          selectedFile := Some Sample.png |}.
Proof. repeat split. Qed.


(** * Further properties of the code *)

(** ** The stand-in forensic check *)

Lemma Qfloor_between (x : Q) (lo hi : Z) :
  (inject_Z lo <= x)%Q -> (x < inject_Z hi)%Q ->
  (lo <= Qfloor x < hi)%Z.
Proof.
  intros Hlo Hhi. split.
  - rewrite <- (Qfloor_Z lo). apply Qfloor_resp_le, Hlo.
  - rewrite Zlt_Qlt. eapply Qle_lt_trans; [apply Qfloor_le | exact Hhi].
Qed.

Lemma inject_Z_plus_50 (k : Z) : (inject_Z k + 50)%Q = inject_Z (k + 50).
Proof. unfold Qplus, inject_Z. simpl. rewrite Z.mul_1_r. reflexivity. Qed.

(** The score of the stand-in check as an integer. *)
Lemma deepfakeScore_of_range (w : World) (f : File) :
  (0 <= Math_random w < 1)%Q ->
  exists n : Z,
    deepfakeScore_of w (Some f) = Some (inject_Z n) /\ (50 <= n <= 99)%Z.
Proof.
  intros [Hlo Hhi].
  exists (Qfloor (Math_random w * (99 - 50 + 1)) + 50)%Z. split.
  - unfold deepfakeScore_of, Math_floor. f_equal.
    apply inject_Z_plus_50.
  - assert (H : (0 <= Qfloor (Math_random w * (99 - 50 + 1)) < 50)%Z).
    { apply Qfloor_between.
      - change (inject_Z 0) with 0%Q. lra.
      - change (inject_Z 50) with 50%Q. lra. }
    lia.
Qed.

(** X1. With a random draw in [0, 1) the stand-in forensic check returns
    a whole integrity score between 50 and 99, and it is the one call it
    adds to the trace. *)
Theorem checkDeepfake_range (w : World) (file : File) (tr : list Event) :
  (0 <= Math_random w < 1)%Q ->
  exists n : Z,
    checkDeepfake w file tr
    = (Return (inject_Z n), (tr ++ [CheckDeepfake file])%list)
    /\ (50 <= n <= 99)%Z.
Proof.
  intros H. destruct (deepfakeScore_of_range w file H) as (n & E & Hn).
  exists n. split; [| exact Hn].
  unfold deepfakeScore_of in E.
  assert (E' : (Math_floor (Math_random w * (99 - 50 + 1)) + 50)%Q
               = inject_Z n) by congruence.
  unfold checkDeepfake, bind, emit, ret. rewrite E'. reflexivity.
Qed.

Lemma checkDeepfake_range_witness :
  exists n : Z,
    checkDeepfake (Sample.answering "Facts.") Sample.png []
    = (Return (inject_Z n), [CheckDeepfake Sample.png])
    /\ (50 <= n <= 99)%Z.
Proof.
  apply (checkDeepfake_range (Sample.answering "Facts.") Sample.png []).
  split; [discriminate | reflexivity].
Defined.

(** ** The fusion step, further *)

(** The rounded mean of two scores as an integer between bounds. *)
Lemma Math_round_between (x : Q) (lo hi : Z) :
  (inject_Z lo - (1 # 2) <= x)%Q -> (x < inject_Z hi + (1 # 2))%Q ->
  exists n : Z, Math_round x = inject_Z n /\ (lo <= n <= hi)%Z.
Proof.
  intros Hlo Hhi. exists (Qfloor (x + (1 # 2))). split; [reflexivity |].
  assert (H : (lo <= Qfloor (x + (1 # 2)) < hi + 1)%Z).
  { apply Qfloor_between.
    - lra.
    - rewrite inject_Z_plus. change (inject_Z 1) with 1%Q. lra. }
  lia.
Qed.

(** X2. With a contextual risk score between 0 and 100, and an integrity
    score between 0 and 100 when there is one, the report of the fusion
    step carries a fusion score between 0 and 100; with an integrity
    score it is a whole number. *)
Theorem fuse_fusionScore_in_range
  (w : World) (a : Schema.t) (d : option Q) (caption : string)
  (tr : list Event) :
  (0 <= Schema.riskScore a <= 100)%Q ->
  (forall s, d = Some s -> (0 <= s <= 100)%Q) ->
  exists out tr' score,
    fuse w (as_AnalysisResult a) d caption tr = (Return out, tr')
    /\ fusionScore out = Some score
    /\ (0 <= score <= 100)%Q
    /\ (forall s, d = Some s -> exists n : Z, score = inject_Z n).
Proof.
  intros Hr Hd.
  destruct (fuse_returns w (as_AnalysisResult a) d caption tr)
    as (out & tr' & E & _ & F & _).
  destruct d as [s |].
  - rewrite fuse_scores_fusionScore in F. simpl riskScore in F.
    destruct (Hd s eq_refl) as [Hs0 Hs1].
    destruct (Math_round_between
                ((Schema.riskScore a + (100 - s)) / 2) 0 100)
      as (n & En & Hn).
    + change (inject_Z 0) with 0%Q. unfold Qdiv.
      change (/ 2)%Q with (1 # 2). lra.
    + change (inject_Z 100) with 100%Q. unfold Qdiv.
      change (/ 2)%Q with (1 # 2). lra.
    + exists out, tr', (inject_Z n). rewrite <- En.
      split; [exact E |]. split; [exact F |]. split.
      * rewrite En. split.
        -- change 0%Q with (inject_Z 0). rewrite <- Zle_Qle. lia.
        -- change 100%Q with (inject_Z 100). rewrite <- Zle_Qle. lia.
      * intros _ _. exists n. exact En.
  - exists out, tr', (Schema.riskScore a).
    split; [exact E |]. split; [exact F |]. split; [exact Hr |].
    intros s H. discriminate.
Qed.

Lemma fuse_fusionScore_in_range_witness :
  exists out tr' score,
    fuse (Sample.answering "Facts.") (as_AnalysisResult Sample.alarming)
      (Some 75%Q) "A caption" [] = (Return out, tr')
    /\ fusionScore out = Some score
    /\ (0 <= score <= 100)%Q.
Proof.
  destruct (fuse_fusionScore_in_range (Sample.answering "Facts.")
              Sample.alarming (Some 75%Q) "A caption" [])
    as (out & tr' & score & E & F & H & _).
  - split; discriminate.
  - intros s Hs. injection Hs as <-. split; discriminate.
  - exists out, tr', score. repeat split; try assumption; apply H.
Defined.

(** X3. The fusion step hands the analyzer's score, summary, flags,
    narrative strategy and emotional triggers through untouched, whatever
    the authenticity signal and the outcome of the rebuttal request. *)
Theorem fuse_copies_the_assessment
  (w : World) (a : Schema.t) (d : option Q) (caption : string)
  (tr : list Event) :
  exists out tr',
    fuse w (as_AnalysisResult a) d caption tr = (Return out, tr')
    /\ riskScore out = Schema.riskScore a
    /\ summary out = Schema.summary a
    /\ flags out = Schema.flags a
    /\ narrativeStrategy out = Schema.narrativeStrategy a
    /\ emotionalTriggers out = Schema.emotionalTriggers a.
Proof.
  destruct (fuse_returns w (as_AnalysisResult a) d caption tr)
    as (out & tr' & E & R & _ & _ & S & F & N & T & _).
  destruct (fuse_scores_copies (as_AnalysisResult a) d)
    as (R' & S' & F' & N' & T' & _).
  exists out, tr'. rewrite R, S, F, N, T, R', S', F', N', T'.
  repeat split. exact E.
Qed.

(** X4. When the level of the report differs from the level of the
    analyzer, the report is CRITICAL, it carries the visual integrity
    warning, and there was an integrity score below 70 with a contextual
    risk score above 85. *)
Theorem fuse_changes_the_level_only_by_escalation
  (w : World) (a : Schema.t) (d : option Q) (caption : string)
  (tr : list Event) :
  exists out tr',
    fuse w (as_AnalysisResult a) d caption tr = (Return out, tr')
    /\ (riskLevel out <> Schema.riskLevel a ->
        riskLevel out = CRITICAL
        /\ visualIntegrityWarning out
           = Some "Potential AI Artifacts Detected"
        /\ exists s, d = Some s
                     /\ (s < 70)%Q /\ (85 < Schema.riskScore a)%Q).
Proof.
  destruct (fuse_returns w (as_AnalysisResult a) d caption tr)
    as (out & tr' & E & _ & _ & L & _ & _ & _ & _ & _ & W).
  exists out, tr'. split; [exact E |]. rewrite L, W.
  destruct d as [s |].
  - rewrite fuse_scores_riskLevel, fuse_scores_visualIntegrityWarning.
    simpl riskScore. simpl riskLevel.
    destruct (ltb s 70) eqn:Es; simpl.
    + destruct (gtb (Schema.riskScore a) 85) eqn:Er.
      * intros _. split; [reflexivity |]. split; [reflexivity |].
        exists s. split; [reflexivity |].
        split; [apply ltb_lt, Es | apply gtb_gt, Er].
      * intros H. contradiction.
    + intros H. contradiction.
  - simpl. intros H. contradiction.
Qed.

(** X5. The text [generateRebuttal] returns is never empty: an answer
    with text is returned as it is, every other settlement gives one of
    the two placeholders. *)
Theorem generateRebuttal_text_not_empty
  (w : World) (context : string) (tr : list Event) :
  exists text tr',
    generateRebuttal w context tr = (Return text, tr')
    /\ text <> ""
    /\ (forall answer,
          generateContent w (Prompt (rebuttal_prompt context))
          = Return (Some answer) ->
          answer <> "" -> text = answer).
Proof.
  rewrite generateRebuttal_run. cbv zeta.
  destruct (generateContent w (Prompt (rebuttal_prompt context)))
    as [[answer |] | e].
  - eexists _, _. split; [reflexivity |]. split.
    + destruct answer; simpl; discriminate.
    + intros answer' H Hne. injection H as <-.
      destruct answer; [contradiction | reflexivity].
  - eexists _, _. split; [reflexivity |]. split; [discriminate |].
    intros answer H. discriminate.
  - eexists _, _. split; [reflexivity |]. split; [discriminate |].
    intros answer H. discriminate.
Qed.

(** ** The runs of [analyzeContent] *)

Section RunFacts.

Variable w : World.

(** [analyzeContent] by its checks: the key, the read of the media, the
    input check, then the guarded analysis. *)
Lemma analyzeContent_run file caption :
  run (analyzeContent w file caption) =
  if negb (opt_truthy (API_KEY w)) then (Throw (Error err_api_key), [])
  else
    match read_failure w file with
    | Some e => (Throw e, media_reads file)
    | None =>
        match request_parts w file caption with
        | [] => (Throw (Error err_no_input), media_reads file)
        | parts =>
            try_catch (analysis w file caption parts) analysis_failed
              (media_reads file)
        end
    end.
Proof.
  unfold run, analyzeContent, request_parts, read_failure, media_reads.
  destruct (negb (opt_truthy (API_KEY w))); [reflexivity |].
  destruct file as [f |].
  - unfold bind, fileToBase64, bind, emit, await, ret. simpl.
    destruct (readAsDataURL w f) as [url | e]; [| reflexivity].
    destruct (truthy (trim caption)); reflexivity.
  - unfold bind, ret. rewrite app_nil_r.
    destruct (truthy (trim caption)); reflexivity.
Qed.

(** The guarded analysis either fuses a parsed answer or, on an upstream
    failure, logs and throws the generic error. *)
Lemma guarded_analysis_cases file caption parts tr :
  let tr1 :=
    (tr ++ GenerateContent (Structured parts) :: forensic_calls file)%list in
  (upstream_failure w parts
   /\ try_catch (analysis w file caption parts) analysis_failed tr
      = (Throw (Error err_analysis),
         (tr1 ++ [ConsoleError "Analysis failed:"])%list))
  \/ (exists text parsed,
         generateContent w (Structured parts) = Return (Some text)
         /\ text <> ""
         /\ JSON_parse w text = Return parsed
         /\ try_catch (analysis w file caption parts) analysis_failed tr
            = fuse w (as_AnalysisResult parsed) (deepfakeScore_of w file)
                caption tr1).
Proof.
  cbv zeta. unfold try_catch, upstream_failure. rewrite analysis_run.
  cbv zeta.
  destruct (generateContent w (Structured parts)) as [[text |] | e0] eqn:G.
  - destruct (truthy text) eqn:T.
    + destruct (JSON_parse w text) as [parsed | e1] eqn:P.
      * right. exists text, parsed.
        split; [reflexivity |]. split.
        { intros ->. discriminate. }
        split; [exact P |].
        destruct (fuse_returns w (as_AnalysisResult parsed)
                    (deepfakeScore_of w file) caption
                    (tr ++ GenerateContent (Structured parts)
                        :: forensic_calls file)%list)
          as (out & tr' & -> & _).
        reflexivity.
      * left. split; [right; exists e1; reflexivity | reflexivity].
    + left. split; [left; apply truthy_false_iff, T | reflexivity].
  - left. split; [exact I | reflexivity].
  - left. split; [exact I | reflexivity].
Qed.

End RunFacts.

(** A report is returned only by the fusion of a parsed answer. *)
Lemma analyzeContent_returns_inv (w : World) file caption out tr :
  run (analyzeContent w file caption) = (Return out, tr) ->
  opt_truthy (API_KEY w) = true
  /\ read_failure w file = None
  /\ request_parts w file caption <> []
  /\ exists text parsed,
       generateContent w (Structured (request_parts w file caption))
       = Return (Some text)
       /\ text <> ""
       /\ JSON_parse w text = Return parsed
       /\ fuse w (as_AnalysisResult parsed) (deepfakeScore_of w file) caption
            (media_reads file
             ++ GenerateContent (Structured (request_parts w file caption))
             :: forensic_calls file)%list
          = (Return out, tr).
Proof.
  rewrite analyzeContent_run.
  destruct (opt_truthy (API_KEY w)); simpl; [| discriminate].
  destruct (read_failure w file); [discriminate |].
  destruct (request_parts w file caption) as [| p parts] eqn:Parts;
    [discriminate |].
  intros H. split; [reflexivity |]. split; [reflexivity |].
  split; [discriminate |].
  destruct (guarded_analysis_cases w file caption (p :: parts)
              (media_reads file))
    as [[_ E] | (text & parsed & G & T & P & E)];
    rewrite E in H; [discriminate |].
  exists text, parsed. repeat split; assumption.
Qed.

(** X7. In every report [analyzeContent] returns, the visual integrity
    score is set exactly when a file was given, a rebuttal is carried
    exactly when the level is CRITICAL, and a visual integrity warning
    stands only beside an integrity score below 70. *)
Theorem analyzeContent_report_shape
  (w : World) (file : option File) (caption : string)
  (out : AnalysisResult) (tr : list Event) :
  run (analyzeContent w file caption) = (Return out, tr) ->
  (file = None <-> visualIntegrityScore out = None)
  /\ (rebuttal out <> None <-> riskLevel out = CRITICAL)
  /\ (visualIntegrityWarning out <> None ->
      exists s, visualIntegrityScore out = Some s /\ (s < 70)%Q).
Proof.
  intros H.
  destruct (analyzeContent_returns_inv w file caption out tr H)
    as (_ & _ & _ & text & parsed & _ & _ & _ & E).
  remember (deepfakeScore_of w file) as d eqn:D.
  set (tr0 := (media_reads file ++ _)%list) in E. clearbody tr0.
  assert (V : visualIntegrityScore (fuse_scores (as_AnalysisResult parsed) d)
              = d).
  { destruct d as [s |];
      [apply fuse_scores_visualIntegrityScore | reflexivity]. }
  assert (W : visualIntegrityWarning
                (fuse_scores (as_AnalysisResult parsed) d) <> None ->
              exists s, d = Some s /\ (s < 70)%Q).
  { destruct d as [s |].
    - rewrite fuse_scores_visualIntegrityWarning.
      destruct (ltb s 70) eqn:Es; simpl.
      + intros _. exists s. split; [reflexivity | apply ltb_lt, Es].
      + intros N. contradiction.
    - simpl. intros N. contradiction. }
  assert (Shape :
            visualIntegrityScore out = d
            /\ visualIntegrityWarning out
               = visualIntegrityWarning
                   (fuse_scores (as_AnalysisResult parsed) d)
            /\ (rebuttal out <> None <-> riskLevel out = CRITICAL)).
  { revert E. by_level (as_AnalysisResult parsed) d L.
    - destruct (generateRebuttal_returns w
                  (contextForRebuttal
                     (fuse_scores (as_AnalysisResult parsed) d) caption) tr0)
        as (t & more & -> & _).
      intros E. cbv beta iota in E.
      assert (O : out = set_rebuttal t
                          (fuse_scores (as_AnalysisResult parsed) d))
        by congruence.
      rewrite O. simpl.
      split; [exact V |]. split; [reflexivity |].
      split; [intros _; exact L | intros _; discriminate].
    - intros E.
      assert (O : out = fuse_scores (as_AnalysisResult parsed) d)
        by congruence.
      rewrite O.
      destruct (fuse_scores_copies (as_AnalysisResult parsed) d)
        as (_ & _ & _ & _ & _ & ->).
      split; [exact V |]. split; [reflexivity |].
      split; [intros N; contradiction | intros C; contradiction]. }
  destruct Shape as (-> & -> & R).
  split.
  - rewrite D. unfold deepfakeScore_of. destruct file; split; congruence.
  - split; [exact R | exact W].
Qed.

Lemma analyzeContent_report_shape_witness :
  exists out tr,
    run (analyzeContent (Sample.answering "Facts.") (Some Sample.png)
           "A caption")
    = (Return out, tr)
    /\ (rebuttal out <> None <-> riskLevel out = CRITICAL)
    /\ riskLevel out = CRITICAL.
Proof.
  eexists _, _. split; [vm_compute; reflexivity |].
  match goal with
  | |- (rebuttal ?o <> None <-> _) /\ _ =>
      destruct (analyzeContent_report_shape
                  (Sample.answering "Facts.") (Some Sample.png) "A caption"
                  o _ eq_refl)
        as (_ & R & _)
  end.
  split; [exact R | reflexivity].
Defined.

(** X8. The errors of [analyzeContent] are four: the missing key and the
    missing input, both thrown before anything is done; the error of the
    file reader, handed on as it is after the read and before any call;
    and the one generic analysis error, thrown after its log entry.  A
    run that throws has made no rebuttal request. *)
Theorem analyzeContent_errors
  (w : World) (file : option File) (caption : string)
  (e : Thrown) (tr : list Event) :
  run (analyzeContent w file caption) = (Throw e, tr) ->
  ((e = Error "API Key is missing." /\ tr = [])
   \/ (e = Error "Please provide at least a file or a caption to analyze."
       /\ file = None /\ tr = [])
   \/ (exists f,
          file = Some f /\ readAsDataURL w f = Throw e
          /\ tr = [ReadAsDataURL f])
   \/ (e = Error
             "Failed to analyze content. The model may have been blocked or the input format is invalid."
       /\ exists sent,
            tr = (sent ++ [ConsoleError "Analysis failed:"])%list))
  /\ Forall (fun ev => forall p, ev <> GenerateContent (Prompt p)) tr.
Proof.
  rewrite analyzeContent_run.
  destruct (opt_truthy (API_KEY w)); simpl.
  - destruct (read_failure w file) as [e0 |] eqn:R.
    + unfold read_failure in R. destruct file as [f |]; [| discriminate].
      destruct (readAsDataURL w f) as [url | e1] eqn:Rd; [discriminate |].
      injection R as ->. intros H. injection H as <- <-. split.
      * right. right. left. exists f. repeat split. exact Rd.
      * repeat constructor. discriminate.
    + destruct (request_parts w file caption) as [| p parts] eqn:Parts.
      * intros H. injection H as <- <-.
        assert (Hfile : file = None).
        { unfold request_parts, read_failure in *.
          destruct file as [f |]; [| reflexivity].
          destruct (readAsDataURL w f); [| discriminate].
          destruct (truthy (trim caption)); discriminate. }
        subst file. split; [| constructor].
        right. left. repeat split.
      * destruct (guarded_analysis_cases w file caption (p :: parts)
                    (media_reads file))
          as [[_ E] | (text & parsed & _ & _ & _ & E)]; rewrite E.
        -- intros H. injection H as <- <-. split.
           ++ right. right. right. split; [reflexivity |].
              eexists. reflexivity.
           ++ rewrite Forall_app. split; [| repeat constructor; discriminate].
              apply Forall_app. split.
              ** destruct file; repeat constructor; discriminate.
              ** constructor; [discriminate |].
                 destruct file; repeat constructor; discriminate.
        -- destruct (fuse_returns w (as_AnalysisResult parsed)
                       (deepfakeScore_of w file) caption
                       (media_reads file
                        ++ GenerateContent (Structured (p :: parts))
                        :: forensic_calls file)%list)
             as (out & tr' & -> & _).
           discriminate.
  - intros H. injection H as <- <-. split; [| constructor].
    left. split; reflexivity.
Qed.

Lemma analyzeContent_errors_witness :
  Forall (fun ev => forall p, ev <> GenerateContent (Prompt p))
    (snd (run (analyzeContent Scenario.down (Some Sample.png) "A caption"))).
Proof.
  apply (analyzeContent_errors Scenario.down (Some Sample.png) "A caption"
           (Error err_analysis)).
  reflexivity.
Defined.

(** X9. With the key set, the media read and something to send, an
    upstream failure (the analysis request rejected, answered without
    text, or with a text that does not parse) gives the generic analysis
    error: the request was sent, the forensic check started if there is a
    file, the failure logged, and nothing else was called. *)
Theorem analyzeContent_upstream_failure
  (w : World) (file : option File) (caption : string) :
  opt_truthy (API_KEY w) = true ->
  read_failure w file = None ->
  request_parts w file caption <> [] ->
  upstream_failure w (request_parts w file caption) ->
  run (analyzeContent w file caption)
  = (Throw
       (Error
          "Failed to analyze content. The model may have been blocked or the input format is invalid."),
     (media_reads file
      ++ GenerateContent (Structured (request_parts w file caption))
      :: forensic_calls file ++ [ConsoleError "Analysis failed:"])%list).
Proof.
  intros K R N U. rewrite analyzeContent_run, K, R. simpl.
  destruct (request_parts w file caption) as [| p parts] eqn:Parts;
    [contradiction |].
  destruct (guarded_analysis_cases w file caption (p :: parts)
              (media_reads file))
    as [[_ E] | (text & parsed & G & T & P & _)].
  - rewrite E, <- app_assoc. reflexivity.
  - exfalso. unfold upstream_failure in U. rewrite G in U.
    destruct U as [U | [e U]]; [contradiction | congruence].
Qed.

Lemma analyzeContent_upstream_failure_witness :
  run (analyzeContent Scenario.down (Some Sample.png) "A caption")
  = (Throw (Error err_analysis),
     [ReadAsDataURL Sample.png;
      GenerateContent
        (Structured
           [caption_part "A caption";
            InlineData "image/png" (Some "iVBORw0KGgo=")]);
      CheckDeepfake Sample.png;
      ConsoleError "Analysis failed:"]).
Proof.
  apply (analyzeContent_upstream_failure Scenario.down (Some Sample.png)
           "A caption").
  - reflexivity.
  - reflexivity.
  - discriminate.
  - exact I.
Defined.

(** X10. With the key set, a file whose read fails makes
    [analyzeContent] throw the reader's own error, not the generic one:
    the read is the only thing done, no request is sent. *)
Theorem analyzeContent_unreadable_file
  (w : World) (f : File) (caption : string) (e : Thrown) :
  opt_truthy (API_KEY w) = true ->
  readAsDataURL w f = Throw e ->
  run (analyzeContent w (Some f) caption) = (Throw e, [ReadAsDataURL f]).
Proof.
  intros K R. rewrite analyzeContent_run, K. simpl. rewrite R. reflexivity.
Qed.

Lemma analyzeContent_unreadable_file_witness :
  run (analyzeContent Scenario.unreadable (Some Sample.png) "A caption")
  = (Throw ProgressEvent, [ReadAsDataURL Sample.png]).
Proof.
  apply (analyzeContent_unreadable_file Scenario.unreadable Sample.png
           "A caption" ProgressEvent); reflexivity.
Defined.

(** ** The payload of a data URL *)

Lemma split_comma_without_comma (s : string) :
  has_comma s = false -> split_comma s = [s].
Proof.
  induction s as [| c s IH]; simpl; [reflexivity |].
  destruct (Ascii.eqb c ","%char); simpl; [discriminate |].
  intros H. rewrite (IH H). reflexivity.
Qed.

Lemma split_comma_header (header rest : string) :
  has_comma header = false ->
  split_comma (header ++ String ","%char rest) = header :: split_comma rest.
Proof.
  induction header as [| c header IH]; simpl; [reflexivity |].
  destruct (Ascii.eqb c ","%char); simpl; [discriminate |].
  intros H. rewrite (IH H). reflexivity.
Qed.

(** X11. [fileToBase64] strips the header of the data URL: for a URL
    made of a header without comma, a comma and a payload without comma
    it returns the payload; for a URL with no comma at all it returns
    [undefined]. *)
Theorem fileToBase64_strips_the_header
  (w : World) (f : File) (tr : list Event) :
  (forall header payload,
      has_comma header = false ->
      has_comma payload = false ->
      readAsDataURL w f = Return (header ++ "," ++ payload) ->
      fileToBase64 w f tr
      = (Return (Some payload), (tr ++ [ReadAsDataURL f])%list))
  /\ (forall url,
         has_comma url = false ->
         readAsDataURL w f = Return url ->
         fileToBase64 w f tr = (Return None, (tr ++ [ReadAsDataURL f])%list)).
Proof.
  split.
  - intros header payload Hh Hp R.
    unfold fileToBase64, bind, emit, await, ret. rewrite R.
    change ("," ++ payload) with (String ","%char payload).
    rewrite (split_comma_header header payload Hh),
      (split_comma_without_comma payload Hp).
    reflexivity.
  - intros url Hu R.
    unfold fileToBase64, bind, emit, await, ret. rewrite R.
    rewrite (split_comma_without_comma url Hu). reflexivity.
Qed.

Lemma fileToBase64_strips_the_header_witness :
  fileToBase64 (Sample.answering "Facts.") Sample.png []
  = (Return (Some "iVBORw0KGgo="), [ReadAsDataURL Sample.png]).
Proof.
  apply (proj1 (fileToBase64_strips_the_header
                  (Sample.answering "Facts.") Sample.png [])
           "data:image/png;base64" "iVBORw0KGgo=");
    reflexivity.
Defined.

(** ** The fusion score of a run with media *)

(** The fusion score the score logic gives with the stand-in check. *)
Lemma fuse_scores_media_bounds (w : World) (a : Schema.t) (f : File) :
  (0 <= Math_random w < 1)%Q ->
  (0 <= Schema.riskScore a <= 100)%Q ->
  exists n : Z,
    fusionScore (fuse_scores (as_AnalysisResult a)
                   (deepfakeScore_of w (Some f)))
    = Some (inject_Z n)
    /\ (1 <= n <= 75)%Z.
Proof.
  intros Hrnd [Hr0 Hr1].
  destruct (deepfakeScore_of_range w f Hrnd) as (k & -> & Hk).
  rewrite fuse_scores_fusionScore. simpl riskScore.
  assert (Hk0 : (inject_Z 50 <= inject_Z k)%Q) by (rewrite <- Zle_Qle; lia).
  assert (Hk1 : (inject_Z k <= inject_Z 99)%Q) by (rewrite <- Zle_Qle; lia).
  change (inject_Z 50) with 50%Q in Hk0.
  change (inject_Z 99) with 99%Q in Hk1.
  destruct (Math_round_between
              ((Schema.riskScore a + (100 - inject_Z k)) / 2) 1 75)
    as (n & En & Hn).
  - change (inject_Z 1) with 1%Q. unfold Qdiv.
    change (/ 2)%Q with (1 # 2). lra.
  - change (inject_Z 75) with 75%Q. unfold Qdiv.
    change (/ 2)%Q with (1 # 2). lra.
  - exists n. rewrite En. split; [reflexivity | exact Hn].
Qed.

(** X12. With a random draw in [0, 1) and a contextual risk score
    between 0 and 100, the fusion score of a run with a file is a whole
    number between 1 and 75: the stand-in check never scores the media
    below 50 or at 100. *)
Theorem fusionScore_with_media_bounds
  (w : World) (a : Schema.t) (f : File) (caption : string)
  (tr : list Event) :
  (0 <= Math_random w < 1)%Q ->
  (0 <= Schema.riskScore a <= 100)%Q ->
  exists out tr' n,
    fuse w (as_AnalysisResult a) (deepfakeScore_of w (Some f)) caption tr
    = (Return out, tr')
    /\ fusionScore out = Some (inject_Z n)
    /\ (1 <= n <= 75)%Z.
Proof.
  intros Hrnd Hr.
  destruct (fuse_scores_media_bounds w a f Hrnd Hr) as (n & En & Hn).
  destruct (fuse_returns w (as_AnalysisResult a)
              (deepfakeScore_of w (Some f)) caption tr)
    as (out & tr' & E & _ & F & _).
  exists out, tr', n. rewrite F. repeat split; try assumption; lia.
Qed.

Lemma fusionScore_with_media_bounds_witness :
  exists out tr' n,
    fuse (Sample.answering "Facts.") (as_AnalysisResult Sample.alarming)
      (deepfakeScore_of (Sample.answering "Facts.") (Some Sample.png))
      "A caption" []
    = (Return out, tr')
    /\ fusionScore out = Some (inject_Z n)
    /\ (1 <= n <= 75)%Z.
Proof.
  apply (fusionScore_with_media_bounds (Sample.answering "Facts.")
           Sample.alarming Sample.png "A caption" []).
  - split; [discriminate | reflexivity].
  - split; discriminate.
Defined.

(** ** The scan of [App] *)

Lemma opt_or_else_not_empty (o : option string) (fallback : string) :
  fallback <> "" -> opt_or_else o fallback <> "".
Proof.
  intros H. destruct o as [[| c s] |]; simpl; try exact H. discriminate.
Qed.

(** [handleAnalyze] by the run of [analyzeContent]. *)
Lemma handleAnalyze_run (w : World) file caption :
  run (App.handleAnalyze w file caption) =
  if match file with Some _ => false | None => true end
     && all_whitespace caption
  then (Return [], [])
  else
    match run (analyzeContent w file caption) with
    | (Return out, tr) =>
        (Return [App.loading;
                 {| App.isLoading := false; App.error := None;
                    App.result := Some out |}], tr)
    | (Throw e, tr) =>
        (Return [App.loading;
                 {| App.isLoading := false;
                    App.error :=
                      Some (opt_or_else (App.message e) App.err_unexpected);
                    App.result := None |}], tr)
    end.
Proof.
  unfold run, App.handleAnalyze. rewrite truthy_trim, negb_involutive.
  destruct (match file with Some _ => false | None => true end
            && all_whitespace caption); [reflexivity |].
  unfold try_catch, bind, ret.
  destruct (analyzeContent w file caption []) as [[out | e] tr]; reflexivity.
Qed.

(** X13. [handleAnalyze] never throws.  With no file and a blank caption
    it sets no state and calls nothing.  Otherwise it sets the loading
    state and then one final state that is not loading and holds either
    the report of [analyzeContent] and no error, or no report and an
    error message that is not empty. *)
Theorem handleAnalyze_states
  (w : World) (file : option File) (caption : string) :
  exists states tr,
    run (App.handleAnalyze w file caption) = (Return states, tr)
    /\ ((file = None /\ all_whitespace caption = true
         /\ states = [] /\ tr = [])
        \/ ((file <> None \/ all_whitespace caption = false)
            /\ exists final,
                 states = [App.loading; final]
                 /\ App.isLoading final = false
                 /\ ((exists out,
                         run (analyzeContent w file caption)
                         = (Return out, tr)
                         /\ App.result final = Some out
                         /\ App.error final = None)
                     \/ (exists e message,
                            run (analyzeContent w file caption)
                            = (Throw e, tr)
                            /\ App.result final = None
                            /\ App.error final = Some message
                            /\ message <> "")))).
Proof.
  rewrite handleAnalyze_run.
  destruct file as [f |]; simpl.
  - destruct (run (analyzeContent w (Some f) caption)) as [[out | e] tr].
    + eexists _, _. split; [reflexivity |]. right.
      split; [left; discriminate |].
      eexists. split; [reflexivity |]. split; [reflexivity |].
      left. exists out. repeat split.
    + eexists _, _. split; [reflexivity |]. right.
      split; [left; discriminate |].
      eexists. split; [reflexivity |]. split; [reflexivity |].
      right. eexists e, _. repeat split.
      apply opt_or_else_not_empty. discriminate.
  - destruct (all_whitespace caption) eqn:Ws.
    + eexists _, _. split; [reflexivity |]. left. repeat split.
    + destruct (run (analyzeContent w None caption)) as [[out | e] tr].
      * eexists _, _. split; [reflexivity |]. right.
        split; [right; reflexivity |].
        eexists. split; [reflexivity |]. split; [reflexivity |].
        left. exists out. repeat split.
      * eexists _, _. split; [reflexivity |]. right.
        split; [right; reflexivity |].
        eexists. split; [reflexivity |]. split; [reflexivity |].
        right. eexists e, _. repeat split.
        apply opt_or_else_not_empty. discriminate.
Qed.

(** X14. What a failed scan shows.  Once past the guard of
    [handleAnalyze]: without a key the error shown is
    "API Key is missing." and nothing was called; with a key and a file
    whose read fails with the reader's event, which has no message, it
    is "An unexpected error occurred during analysis."; with a key, the
    media read and an upstream failure it is the generic analysis
    message. *)
Theorem handleAnalyze_error_shown
  (w : World) (file : option File) (caption : string) :
  file <> None \/ all_whitespace caption = false ->
  exists final tr,
    run (App.handleAnalyze w file caption)
    = (Return [App.loading; final], tr)
    /\ (opt_truthy (API_KEY w) = false ->
        App.error final = Some "API Key is missing." /\ tr = [])
    /\ (opt_truthy (API_KEY w) = true ->
        read_failure w file = Some ProgressEvent ->
        App.error final
        = Some "An unexpected error occurred during analysis.")
    /\ (opt_truthy (API_KEY w) = true ->
        read_failure w file = None ->
        upstream_failure w (request_parts w file caption) ->
        App.error final
        = Some
            "Failed to analyze content. The model may have been blocked or the input format is invalid.").
Proof.
  intros Guard. rewrite handleAnalyze_run.
  assert (G : match file with Some _ => false | None => true end
              && all_whitespace caption = false).
  { destruct file; [reflexivity |]. destruct Guard as [N | ->];
      [contradiction | reflexivity]. }
  rewrite G.
  assert (Parts : request_parts w file caption <> [] \/
                  exists e, read_failure w file = Some e).
  { unfold request_parts, read_failure. destruct file as [f |].
    - destruct (readAsDataURL w f) as [url | e].
      + left. destruct (truthy (trim caption)); discriminate.
      + right. exists e. reflexivity.
    - left. rewrite truthy_trim. destruct Guard as [N | ->];
        [contradiction | discriminate]. }
  rewrite analyzeContent_run.
  destruct (opt_truthy (API_KEY w)); simpl.
  - destruct (read_failure w file) as [e |] eqn:R.
    + eexists _, _. split; [reflexivity |].
      split; [discriminate |]. split.
      * intros _ H. injection H as ->. reflexivity.
      * intros _ H. discriminate.
    + destruct Parts as [N | [e H]]; [| discriminate].
      destruct (request_parts w file caption) as [| p parts] eqn:P;
        [contradiction |].
      destruct (guarded_analysis_cases w file caption (p :: parts)
                  (media_reads file))
        as [[_ E] | (text & parsed & Gc & T & Pj & E)]; rewrite E.
      * eexists _, _. split; [reflexivity |].
        split; [discriminate |]. split; [intros _ H; discriminate |].
        intros _ _ _. reflexivity.
      * destruct (fuse_returns w (as_AnalysisResult parsed)
                    (deepfakeScore_of w file) caption
                    (media_reads file
                     ++ GenerateContent (Structured (p :: parts))
                     :: forensic_calls file)%list)
          as (out & tr' & -> & _).
        eexists _, _. split; [reflexivity |].
        split; [discriminate |]. split; [intros _ H; discriminate |].
        intros _ _ U. exfalso. unfold upstream_failure in U.
        rewrite Gc in U. destruct U as [U | [e U]];
          [contradiction | congruence].
  - eexists _, _. split; [reflexivity |].
    split; [intros _; split; reflexivity |].
    split; intros H; discriminate.
Qed.

Lemma handleAnalyze_error_shown_witness :
  exists final tr,
    run (App.handleAnalyze Sample.keyless (Some Sample.png) "")
    = (Return [App.loading; final], tr)
    /\ App.error final = Some "API Key is missing." /\ tr = [].
Proof.
  destruct (handleAnalyze_error_shown Sample.keyless (Some Sample.png) "")
    as (final & tr & E & K & _).
  - left. discriminate.
  - exists final, tr. split; [exact E | exact (K eq_refl)].
Defined.

(** X15. When the file reader fails only with its event, as the reader
    of the source does, no state [handleAnalyze] sets shows the message
    of the input check of [analyzeContent]: the guard of [handleAnalyze]
    returns first. *)
Theorem input_check_message_never_shown
  (w : World) (file : option File) (caption : string) :
  (forall f m, readAsDataURL w f <> Throw (Error m)) ->
  exists states tr,
    run (App.handleAnalyze w file caption) = (Return states, tr)
    /\ Forall
         (fun st =>
            App.error st
            <> Some "Please provide at least a file or a caption to analyze.")
         states.
Proof.
  intros Reader. rewrite handleAnalyze_run.
  destruct (match file with Some _ => false | None => true end
            && all_whitespace caption) eqn:G.
  - eexists _, _. split; [reflexivity | constructor].
  - rewrite analyzeContent_run.
    destruct (opt_truthy (API_KEY w)); simpl.
    + destruct (read_failure w file) as [e |] eqn:R.
      * eexists _, _. split; [reflexivity |].
        repeat constructor; simpl; [discriminate |].
        unfold read_failure in R. destruct file as [f |]; [| discriminate].
        destruct (readAsDataURL w f) as [url | e'] eqn:Rd; [discriminate |].
        injection R as ->. destruct e as [m |].
        -- exfalso. exact (Reader f m Rd).
        -- simpl. discriminate.
      * destruct (request_parts w file caption) as [| p parts] eqn:P.
        -- exfalso. unfold request_parts, read_failure in *.
           destruct file as [f |].
           ++ destruct (readAsDataURL w f); [| discriminate].
              destruct (truthy (trim caption)); discriminate.
           ++ rewrite truthy_trim in P. simpl in G. rewrite G in P.
              discriminate.
        -- destruct (guarded_analysis_cases w file caption (p :: parts)
                       (media_reads file))
             as [[_ E] | (text & parsed & _ & _ & _ & E)]; rewrite E.
           ++ eexists _, _. split; [reflexivity |].
              repeat constructor; simpl; discriminate.
           ++ destruct (fuse_returns w (as_AnalysisResult parsed)
                          (deepfakeScore_of w file) caption
                          (media_reads file
                           ++ GenerateContent (Structured (p :: parts))
                           :: forensic_calls file)%list)
                as (out & tr' & -> & _).
              eexists _, _. split; [reflexivity |].
              repeat constructor; simpl; discriminate.
    + eexists _, _. split; [reflexivity |].
      repeat constructor; simpl; discriminate.
Qed.

Lemma input_check_message_never_shown_witness :
  exists states tr,
    run (App.handleAnalyze Scenario.unreadable (Some Sample.png) "")
    = (Return states, tr)
    /\ Forall
         (fun st =>
            App.error st
            <> Some "Please provide at least a file or a caption to analyze.")
         states.
Proof.
  apply (input_check_message_never_shown Scenario.unreadable
           (Some Sample.png) "").
  intros f m. discriminate.
Defined.

(** X16. While no scan is running, the scan button is disabled exactly
    when a click would do nothing: when [handleAnalyze] would set no
    state and make no call. *)
Theorem scan_button_matches_the_guard
  (w : World) (analysis : App.AnalysisState) (file : option File)
  (caption : string) :
  App.isLoading analysis = false ->
  (App.scan_disabled analysis file caption = true
   <-> run (App.handleAnalyze w file caption) = (Return [], [])).
Proof.
  intros L. unfold App.scan_disabled. rewrite L, handleAnalyze_run.
  rewrite truthy_trim, negb_involutive. simpl.
  destruct (match file with Some _ => false | None => true end
            && all_whitespace caption).
  - split; reflexivity.
  - split; [discriminate |].
    destruct (run (analyzeContent w file caption)) as [[out | e] tr];
      discriminate.
Qed.

Lemma scan_button_matches_the_guard_witness :
  App.scan_disabled App.initial None "  " = true
  <-> run (App.handleAnalyze (Sample.answering "Facts.") None "  ")
      = (Return [], []).
Proof.
  apply (scan_button_matches_the_guard (Sample.answering "Facts.")
           App.initial None "  ").
  reflexivity.
Defined.

(** ** What the dashboard shows of a report *)

Lemma geb_le (a b : Q) : Dashboard.geb a b = true <-> (b <= a)%Q.
Proof. unfold Dashboard.geb. apply Qle_bool_iff. Qed.

(** The text of a rebuttal is truthy. *)
Lemma generateRebuttal_truthy (w : World) (context : string)
  (tr : list Event) :
  exists text tr',
    generateRebuttal w context tr = (Return text, tr')
    /\ truthy text = true.
Proof.
  rewrite generateRebuttal_run. cbv zeta.
  destruct (generateContent w (Prompt (rebuttal_prompt context)))
    as [[[| c answer] |] | e]; eexists _, _; split; reflexivity.
Qed.

(** X17. The visual integrity panel of a fused report.  Without an
    integrity score the panel is not drawn.  With a score [s] it shows
    [s]; its colour is the one of DANGEROUS exactly when [s] is below
    70, and that is exactly when the warning
    "Potential AI Artifacts Detected" is under it. *)
Theorem dashboard_integrity_panel
  (w : World) (a : Schema.t) (d : option Q) (caption : string)
  (tr : list Event) :
  exists out tr',
    fuse w (as_AnalysisResult a) d caption tr = (Return out, tr')
    /\ (d = None -> Dashboard.integrityPanel out = None)
    /\ (forall s, d = Some s ->
        exists colour warning,
          Dashboard.integrityPanel out = Some (s, colour, warning)
          /\ (colour = Dashboard.COLORS DANGEROUS <-> (s < 70)%Q)
          /\ (warning = Some "Potential AI Artifacts Detected"
              <-> (s < 70)%Q)
          /\ (warning = None <-> (70 <= s)%Q)).
Proof.
  destruct (fuse_returns w (as_AnalysisResult a) d caption tr)
    as (out & tr' & E & _ & _ & _ & _ & _ & _ & _ & V & W).
  exists out, tr'. split; [exact E |].
  unfold Dashboard.integrityPanel. rewrite V, W. split.
  - intros ->. reflexivity.
  - intros s ->.
    rewrite fuse_scores_visualIntegrityScore,
      fuse_scores_visualIntegrityWarning.
    unfold Dashboard.getIntegrityColor.
    destruct (ltb s 70) eqn:Es; simpl.
    + apply ltb_lt in Es.
      assert (N90 : Dashboard.geb s 90 = false).
      { destruct (Dashboard.geb s 90) eqn:G; [| reflexivity].
        apply geb_le in G. lra. }
      assert (N70 : Dashboard.geb s 70 = false).
      { destruct (Dashboard.geb s 70) eqn:G; [| reflexivity].
        apply geb_le in G. lra. }
      rewrite N90, N70. eexists _, _. split; [reflexivity |].
      split; [split; [intros _; exact Es | reflexivity] |].
      split; [split; [intros _; exact Es | reflexivity] |].
      split; [discriminate | intros H; lra].
    + apply ltb_ge in Es.
      assert (Y70 : Dashboard.geb s 70 = true) by (apply geb_le, Es).
      rewrite Y70. eexists _, _. split; [reflexivity |].
      split.
      * split; [| intros H; lra].
        destruct (Dashboard.geb s 90); discriminate.
      * split; [split; [discriminate | intros H; lra] |].
        split; [intros _; exact Es | reflexivity].
Qed.

(** X18. The rebuttal card of a fused report is drawn exactly when the
    level of the report is CRITICAL, and it then shows the rebuttal of
    the report: the text a rebuttal request gives is never empty. *)
Theorem dashboard_rebuttal_card
  (w : World) (a : Schema.t) (d : option Q) (caption : string)
  (tr : list Event) :
  exists out tr',
    fuse w (as_AnalysisResult a) d caption tr = (Return out, tr')
    /\ Dashboard.rebuttalCard out = rebuttal out
    /\ (Dashboard.rebuttalCard out <> None <-> riskLevel out = CRITICAL).
Proof.
  unfold Dashboard.rebuttalCard, Dashboard.isCritical.
  by_level (as_AnalysisResult a) d E.
  - destruct (generateRebuttal_truthy w
                (contextForRebuttal
                   (fuse_scores (as_AnalysisResult a) d) caption) tr)
      as (text & tr' & -> & T).
    eexists _, _. split; [reflexivity |]. simpl. rewrite E, T. simpl.
    split; [reflexivity |]. split; [reflexivity | discriminate].
  - eexists _, _. split; [reflexivity |].
    destruct (fuse_scores_copies (as_AnalysisResult a) d)
      as (_ & _ & _ & _ & _ & ->).
    simpl.
    destruct (RiskLevel_eqb_spec
                (riskLevel (fuse_scores (as_AnalysisResult a) d)) CRITICAL);
      [contradiction |].
    simpl. split; [reflexivity |].
    split; [intros H; contradiction | intros H; contradiction].
Qed.

(** X19. The gauge of a run with media.  With a random draw in [0, 1)
    and a contextual risk score between 0 and 100, the gauge of the
    fused report is drawn in the colour of DANGEROUS exactly when the
    level of the report is CRITICAL: the fusion score alone, at most 75,
    never reaches that colour. *)
Theorem dashboard_gauge_with_media
  (w : World) (a : Schema.t) (f : File) (caption : string)
  (tr : list Event) :
  (0 <= Math_random w < 1)%Q ->
  (0 <= Schema.riskScore a <= 100)%Q ->
  exists out tr',
    fuse w (as_AnalysisResult a) (deepfakeScore_of w (Some f)) caption tr
    = (Return out, tr')
    /\ (Dashboard.gaugeFill out = Dashboard.COLORS DANGEROUS
        <-> riskLevel out = CRITICAL).
Proof.
  intros Hrnd Hr.
  destruct (fuse_scores_media_bounds w a f Hrnd Hr) as (n & En & Hn).
  destruct (fuse_returns w (as_AnalysisResult a)
              (deepfakeScore_of w (Some f)) caption tr)
    as (out & tr' & E & _ & F & _).
  exists out, tr'. split; [exact E |].
  unfold Dashboard.gaugeFill, Dashboard.isCritical, Dashboard.gaugeColor.
  rewrite F, En.
  destruct (RiskLevel_eqb_spec (riskLevel out) CRITICAL) as [C | C].
  - split; [intros _; exact C | reflexivity].
  - split; [| intros H; contradiction].
    unfold Dashboard.getGaugeColor.
    assert (L : ltb (inject_Z n) 80 = true).
    { apply ltb_lt. change 80%Q with (inject_Z 80).
      rewrite <- Zlt_Qlt. lia. }
    destruct (ltb (inject_Z n) 20); [discriminate |].
    destruct (ltb (inject_Z n) 50); [discriminate |].
    rewrite L. discriminate.
Qed.

Lemma dashboard_gauge_with_media_witness :
  exists out tr',
    fuse (Sample.answering "Facts.") (as_AnalysisResult Sample.alarming)
      (deepfakeScore_of (Sample.answering "Facts.") (Some Sample.png))
      "A caption" []
    = (Return out, tr')
    /\ (Dashboard.gaugeFill out = Dashboard.COLORS DANGEROUS
        <-> riskLevel out = CRITICAL).
Proof.
  apply (dashboard_gauge_with_media (Sample.answering "Facts.")
           Sample.alarming Sample.png "A caption" []).
  - split; [discriminate | reflexivity].
  - split; discriminate.
Defined.

(** ** What the upload component shows *)

(** X20. Whatever the user does, the icon of the selected file fits its
    type: the video icon is shown exactly for a video type, the image
    icon exactly for an image type. *)
Theorem upload_icon_matches_type (acts : list UploadAction) (f : File) :
  selectedFile (handle_all acts initialUpload) = Some f ->
  (shows_video_icon f = true <-> startsWith "video/" (type f) = true)
  /\ (shows_video_icon f = false <-> startsWith "image/" (type f) = true).
Proof.
  intros H.
  assert (Ok : Spec.acceptable f).
  { apply (selected_file_acceptable acts initialUpload); [| exact H].
    simpl. discriminate. }
  destruct Ok as [_ [[sub T] | [sub T]]]; unfold shows_video_icon;
    rewrite T; simpl; split; split; intros; congruence.
Qed.

Lemma upload_icon_matches_type_witness :
  shows_video_icon Sample.png = false
  <-> startsWith "image/" (type Sample.png) = true.
Proof.
  apply (upload_icon_matches_type [DragOver; Drop [Sample.png]] Sample.png).
  reflexivity.
Defined.

(** X21. Whatever the user does, the component shows no error or one
    of its two messages. *)
Theorem upload_error_messages (acts : list UploadAction) :
  let st := handle_all acts initialUpload in
  error st = None
  \/ error st = Some "File size exceeds 20MB limit."
  \/ error st = Some "Only image and video files are supported.".
Proof.
  cbv zeta. unfold handle_all.
  assert (V : forall file s,
             error (validateAndSetFile file s) = None
             \/ error (validateAndSetFile file s) = Some err_too_large
             \/ error (validateAndSetFile file s) = Some err_unsupported).
  { intros file s. unfold validateAndSetFile.
    destruct (size file >? MAX_FILE_SIZE)%Z; [right; left; reflexivity |].
    destruct (negb (startsWith "image/" (type file))
              && negb (startsWith "video/" (type file)));
      [right; right; reflexivity | left; reflexivity]. }
  assert (Inv : forall st,
             (error st = None
              \/ error st = Some err_too_large
              \/ error st = Some err_unsupported) ->
             (error (fold_left (fun st a => handle a st) acts st) = None
              \/ error (fold_left (fun st a => handle a st) acts st)
                 = Some err_too_large
              \/ error (fold_left (fun st a => handle a st) acts st)
                 = Some err_unsupported)).
  { induction acts as [| a acts IH]; intros st Inv; simpl; [exact Inv |].
    apply IH.
    destruct a as [| | [| file files] | [[| file files] |] |]; simpl;
      try exact Inv; try apply V.
    left. reflexivity. }
  apply Inv. left. reflexivity.
Qed.

(** ** The calls of a run *)

(** The calls the fusion step adds: none, or the rebuttal request,
    followed by a log entry when it was rejected. *)
Lemma fuse_trace_shape (w : World) r d caption tr :
  exists out more,
    fuse w r d caption tr = (Return out, (tr ++ more)%list)
    /\ (more = []
        \/ exists p,
             more = [GenerateContent (Prompt p)]
             \/ more = [GenerateContent (Prompt p);
                        ConsoleError "Failed to generate rebuttal"]).
Proof.
  by_level r d E.
  - rewrite generateRebuttal_run. cbv zeta.
    destruct (generateContent w _); eexists _, _;
      (split; [reflexivity |]); right; eexists;
      [left | right]; reflexivity.
  - exists (fuse_scores r d), []. rewrite app_nil_r.
    split; [reflexivity | left; reflexivity].
Qed.

(** X22. A run of [analyzeContent] makes at most three outbound calls,
    at most two without a file, and none but the forensic check of the
    file it was given: it never repeats a request. *)
Theorem analyzeContent_outbound_calls
  (w : World) (file : option File) (caption : string) :
  let tr := snd (run (analyzeContent w file caption)) in
  (List.length (filter is_outbound tr) <= 3)%nat
  /\ (file = None -> (List.length (filter is_outbound tr) <= 2)%nat)
  /\ (forall f, In (CheckDeepfake f) tr -> file = Some f).
Proof.
  cbv zeta. rewrite analyzeContent_run.
  destruct (negb (opt_truthy (API_KEY w))).
  { simpl. repeat split; try lia; intros; simpl in *; intuition congruence. }
  destruct (read_failure w file) as [e |].
  { destruct file as [f0 |]; simpl; repeat split; try lia;
      intros; simpl in *; intuition congruence. }
  destruct (request_parts w file caption) as [| p parts].
  { destruct file as [f0 |]; simpl; repeat split; try lia;
      intros; simpl in *; intuition congruence. }
  destruct (guarded_analysis_cases w file caption (p :: parts)
              (media_reads file))
    as [[_ E] | (text & parsed & _ & _ & _ & E)]; rewrite E.
  - destruct file as [f0 |]; simpl; repeat split; try lia;
      intros; simpl in *; intuition congruence.
  - destruct (fuse_trace_shape w (as_AnalysisResult parsed)
                (deepfakeScore_of w file) caption
                (media_reads file
                 ++ GenerateContent (Structured (p :: parts))
                 :: forensic_calls file)%list)
      as (out & more & -> & Shape).
    destruct Shape as [-> | [q [-> | ->]]];
      destruct file as [f0 |]; simpl; repeat split; try lia;
      intros; simpl in *; intuition congruence.
Qed.
